(** * Telegram loyalty bot: a Rocq model of [src/index.js] and
      [src/utils/loyalteez.js]

    The worker is a single asynchronous request handler.  It is embedded
    here as a function in a small monad that threads

    - the state that outlives one statement: the contents of the KV
      namespace, the module-level [cachedBotUsername], and the list of
      operations performed on the outside world so far (the trace);
    - exceptions, with the message of the thrown [Error].

    Everything the worker reads from the outside (HTTP responses of
    Telegram and of the rewards API, the clock) is supplied by a [world]
    oracle, so every theorem holds for all behaviours of the outside.

    JavaScript values are modelled by the type [value].  Strings are the
    UTF-8 bytes of the JavaScript string; the operations used by the
    worker ([startsWith], [includes], [split(" ")], [replace] of an ASCII
    character) agree on both representations for well-formed text.
    Numbers are restricted to the integers. *)

From Stdlib Require Import ZArith String Ascii List Bool Lia.
From stdpp Require Import gmap strings pretty list.

Open Scope Z_scope.
Set Warnings "-register-all".

(* ================================================================== *)
(** ** JavaScript values *)
(* ================================================================== *)

Module JS.

Inductive value : Type :=
| VUndef
| VNull
| VBool (b : bool)
| VNum (n : Z)
| VStr (s : string)
| VArr (items : list value)
| VObj (props : list (string * value)).

(** ToBoolean. *)
Definition truthy (v : value) : bool :=
  match v with
  | VUndef | VNull => false
  | VBool b => b
  | VNum n => negb (n =? 0)
  | VStr s => negb (String.eqb s "")
  | VArr _ | VObj _ => true
  end.

(** [a || b] on values whose evaluation has no effect. *)
Definition or_else (a b : value) : value := if truthy a then a else b.

(** ToString, as performed by a template literal, by [String(v)] and by
    [new Error(v)]. *)
Fixpoint to_string (v : value) : string :=
  match v with
  | VUndef => "undefined"
  | VNull => "null"
  | VBool true => "true"
  | VBool false => "false"
  | VNum n => pretty n
  | VStr s => s
  | VArr items =>
      (fix join (l : list value) : string :=
         match l with
         | [] => ""
         | x :: rest =>
             let sx := match x with
                       | VUndef | VNull => ""
                       | _ => to_string x
                       end in
             match rest with
             | [] => sx
             | _ :: _ => sx +:+ "," +:+ join rest
             end
         end) items
  | VObj _ => "[object Object]"
  end.

(** [v === s] for a string [s]. *)
Definition strict_eq_str (v : value) (s : string) : bool :=
  match v with
  | VStr t => String.eqb t s
  | _ => false
  end.

(** Own property of an object literal produced by [JSON.parse]; the list
    holds each property once. *)
Fixpoint own_prop (k : string) (ps : list (string * value)) : value :=
  match ps with
  | [] => VUndef
  | (k', v) :: rest => if String.eqb k k' then v else own_prop k rest
  end.

(** [s.includes(needle)]. *)
Fixpoint includes (needle s : string) : bool :=
  String.prefix needle s ||
  match s with
  | EmptyString => false
  | String _ rest => includes needle rest
  end.

(** [s.split(" ")]: never empty, keeps empty fields. *)
Fixpoint split_space (s : string) : list string :=
  match s with
  | EmptyString => [EmptyString]
  | String c rest =>
      if Ascii.eqb c " "%char then EmptyString :: split_space rest
      else match split_space rest with
           | [] => [String c EmptyString]
           | field :: fields => String c field :: fields
           end
  end.

(** [s.replace(/c/g, by)] for a single character [c]. *)
Fixpoint replace_all (c : ascii) (by_ : string) (s : string) : string :=
  match s with
  | EmptyString => EmptyString
  | String d rest =>
      if Ascii.eqb d c then by_ +:+ replace_all c by_ rest
      else String d (replace_all c by_ rest)
  end.

(** The characters of a string, as [for ... of] yields them.  (By bytes
    rather than code points; the worker only reads properties of the
    yielded strings, which are all [undefined].) *)
Fixpoint chars (s : string) : list value :=
  match s with
  | EmptyString => []
  | String c rest => VStr (String c EmptyString) :: chars rest
  end.

Definition nl : string := String (ascii_of_nat 10) EmptyString.

(** The result of evaluating an expression: a value, or a thrown
    [Error] with its message. *)
Inductive outcome (A : Type) : Type :=
| Ok (a : A)
| Throw (message : string).
Arguments Ok {A} a.
Arguments Throw {A} message.

(** [v.k]: reading a property.  The keys read by the worker are not
    properties of primitives or arrays, nor inherited ones. *)
Definition get_prop (v : value) (k : string) : outcome value :=
  match v with
  | VUndef => Throw ("Cannot read properties of undefined (reading '" +:+ k +:+ "')")
  | VNull => Throw ("Cannot read properties of null (reading '" +:+ k +:+ "')")
  | VObj ps => Ok (own_prop k ps)
  | VBool _ | VNum _ | VStr _ | VArr _ => Ok VUndef
  end.

(** The values a [for (const x of v)] loop runs over. *)
Definition iterate (v : value) : outcome (list value) :=
  match v with
  | VArr items => Ok items
  | VStr t => Ok (chars t)
  | _ => Throw "object is not iterable"
  end.

End JS.
Export JS.


(* ================================================================== *)
(** ** The outside world, the state and the monad *)
(* ================================================================== *)

(** Which [fetch] a call goes through: the global one, or the [fetch]
    of one of the two service bindings. *)
Inductive channel : Type := Http | EventHandlerBinding | PregenerationBinding.

(** The call site of an outbound request (a label of the model; the URL
    of the request is recorded next to it). *)
Inductive endpoint : Type :=
| SendMessage | GetChatMember | GetMe | EventConfig | PregenerateUser | ManualEvent.

(** One operation on the outside world.  [init] is the second argument
    of [fetch] (or describes the [Request] handed to a binding), with the
    object given to [JSON.stringify] in place of the serialised body. *)
Inductive event : Type :=
| KvGet (key : string)
| KvPut (key : string) (val : string)
| Fetched (site : endpoint) (via : channel) (url : string) (init : value).

(** What [await fetch(...)] resolves to.  [up_json] is the result of
    parsing the body as JSON, [None] when it is not JSON. *)
Record upstream : Type := {
  up_status : Z;
  up_statusText : string;
  up_json : option value
}.

Definition up_ok (r : upstream) : bool :=
  (200 <=? up_status r) && (up_status r <=? 299).

Inductive fetch_result : Type :=
| Rejects (message : string)
| Resolves (r : upstream).

(** The oracle.  [net] answers a request given everything done before
    it; [now] is [new Date().toISOString()]; [string_gt_zero s] is the
    result of the comparison [s > 0] for a string [s] (the numeric value
    of a string literal is not modelled). *)
Record world : Type := {
  net : list event -> event -> fetch_result;
  now : string;
  string_gt_zero : string -> bool
}.

Record state : Type := {
  kv : gmap string string;
  cachedBotUsername : option string;
  trace : list event
}.

Definition log_event (e : event) (s : state) : state :=
  {| kv := kv s; cachedBotUsername := cachedBotUsername s; trace := trace s ++ [e] |}.

Definition M (A : Type) : Type := world -> state -> outcome A * state.

Definition ret {A} (a : A) : M A := fun _ s => (Ok a, s).
Definition throw {A} (message : string) : M A := fun _ s => (Throw message, s).
Definition bind {A B} (m : M A) (k : A -> M B) : M B :=
  fun w s =>
    match m w s with
    | (Ok a, s') => k a w s'
    | (Throw e, s') => (Throw e, s')
    end.
(** [try { body } catch (e) { handler(e.message) }]. *)
Definition try_catch {A} (body : M A) (handler : string -> M A) : M A :=
  fun w s =>
    match body w s with
    | (Ok a, s') => (Ok a, s')
    | (Throw e, s') => handler e w s'
    end.

Notation "x <- m ;; k" := (bind m (fun x => k))
  (at level 100, m at next level, right associativity).
Notation "m ;;; k" := (bind m (fun _ => k))
  (at level 100, right associativity).

(** [await fetch(url, init)] through [via]. *)
Definition js_fetch (site : endpoint) (via : channel) (url : string) (init : value)
  : M upstream :=
  fun w s =>
    let e := Fetched site via url init in
    match net w (trace s) e with
    | Rejects message => (Throw message, log_event e s)
    | Resolves r => (Ok r, log_event e s)
    end.

(** [await res.json()], and [JSON.parse(await res.text())].  The message
    of the parser's error stands for whatever the parser says: every
    caller catches the error and drops or replaces its message. *)
Definition res_json (r : upstream) : M value :=
  match up_json r with
  | Some v => ret v
  | None => throw "Unexpected token in JSON"
  end.

(** [await env.TELEGRAM_BOT_KV.get(key)]: the stored string or [null]. *)
Definition kv_get (key : string) : M value :=
  fun _ s =>
    (Ok (match kv s !! key with Some v => VStr v | None => VNull end),
     log_event (KvGet key) s).

(** [await env.TELEGRAM_BOT_KV.put(key, v)].  The namespace stores
    strings; it rejects a value that is not one. *)
Definition kv_put (key : string) (v : value) : M unit :=
  match v with
  | VStr x =>
      fun _ s =>
        (Ok tt,
         {| kv := <[key := x]> (kv s);
            cachedBotUsername := cachedBotUsername s;
            trace := trace s ++ [KvPut key x] |})
  | _ => throw "KV put() accepts only strings, ArrayBuffers, ArrayBufferViews, and ReadableStreams as values."
  end.

Definition lift {A} (o : outcome A) : M A := fun _ s => (o, s).

Definition prop (v : value) (k : string) : M value := lift (get_prop v k).

(** [v > 0]. *)
Definition gt_zero (v : value) : M bool :=
  fun w s =>
    (Ok match v with
        | VUndef | VNull => false
        | VBool b => b
        | VNum n => 0 <? n
        | VStr t => string_gt_zero w t
        | VArr _ | VObj _ => string_gt_zero w (to_string v)
        end, s).

Definition iter_of (v : value) : M (list value) := lift (iterate v).

Fixpoint for_each (l : list value) (body : value -> M unit) : M unit :=
  match l with
  | [] => ret tt
  | x :: rest => body x ;;; for_each rest body
  end.

(** [text.startsWith(p)], where [text] is [message.text || ""]. *)
Definition starts_with (text : value) (p : string) : M bool :=
  match text with
  | VStr t => ret (String.prefix p t)
  | _ => throw "text.startsWith is not a function"
  end.

(** [v?.includes(needle)], as a condition. *)
Definition opt_includes (v : value) (needle : string) : M bool :=
  match v with
  | VUndef | VNull => ret false
  | VStr t => ret (includes needle t)
  | VArr items => ret (existsb (fun x => strict_eq_str x needle) items)
  | VBool _ | VNum _ | VObj _ => throw "result.error?.includes is not a function"
  end.

(* ================================================================== *)
(** ** The environment of the worker *)
(* ================================================================== *)

(** [env]: variables are strings or absent; bindings are present or
    absent. *)
Record Env : Type := {
  TELEGRAM_BOT_TOKEN : option string;
  BRAND_ID : option string;
  LOYALTEEZ_API_URL : option string;
  WEBHOOK_SECRET : option string;
  TELEGRAM_BOT_KV : bool;
  EVENT_HANDLER : bool;
  PREGENERATION : bool
}.

Definition env_value (o : option string) : value :=
  match o with
  | Some s => VStr s
  | None => VUndef
  end.

(** An environment variable that is set to a non-empty string. *)
Definition configured (o : option string) : option string :=
  match o with
  | Some s => if String.eqb s "" then None else Some s
  | None => None
  end.

Definition dq : string := String "034"%char EmptyString.

Definition json_headers : value :=
  VObj [("Content-Type", VStr "application/json")].

Definition json_headers_ua : value :=
  VObj [("Content-Type", VStr "application/json");
        ("User-Agent", VStr "Loyalteez-Telegram-Bot/1.0")].

Definition post_init (headers body : value) : value :=
  VObj [("method", VStr "POST"); ("headers", headers); ("body", body)].

Definition get_now : M string := fun w s => (Ok (now w), s).

Definition get_cached : M (option string) := fun _ s => (Ok (cachedBotUsername s), s).

Definition set_cached (u : string) : M unit :=
  fun _ s => (Ok tt, {| kv := kv s; cachedBotUsername := Some u; trace := trace s |}).

(* ================================================================== *)
(** ** [src/index.js]: sendMessage, isAdmin, getBotUsername *)
(* ================================================================== *)

(** index.js 418-446.  Without a token nothing is sent; a failure of the
    request is logged and dropped. *)
Definition sendMessage (env : Env) (chatId : value) (text : string) : M unit :=
  match configured (TELEGRAM_BOT_TOKEN env) with
  | None => ret tt
  | Some token =>
      let url := "https://api.telegram.org/bot" +:+ token +:+ "/sendMessage" in
      try_catch
        (_ <- js_fetch SendMessage Http url
                (post_init json_headers
                   (VObj [("chat_id", chatId);
                          ("text", VStr text);
                          ("parse_mode", VStr "HTML");
                          ("disable_web_page_preview", VBool true)])) ;;
         ret tt)
        (fun _ => ret tt)
  end.

(** index.js 250-269. *)
Definition isAdmin (env : Env) (chatId userId : value) : M bool :=
  match configured (TELEGRAM_BOT_TOKEN env) with
  | None => ret false
  | Some token =>
      private <- gt_zero chatId ;;
      if private then ret true
      else
        let url := "https://api.telegram.org/bot" +:+ token
                   +:+ "/getChatMember?chat_id=" +:+ to_string chatId
                   +:+ "&user_id=" +:+ to_string userId in
        answer <- try_catch
          (res <- js_fetch GetChatMember Http url VUndef ;;
           data <- res_json res ;;
           ok <- prop data "ok" ;;
           if truthy ok then
             result <- prop data "result" ;;
             status <- prop result "status" ;;
             ret (Some (strict_eq_str status "creator"
                        || strict_eq_str status "administrator"))
           else ret None)
          (fun _ => ret None) ;;
        match answer with
        | Some b => ret b
        | None => ret false
        end
  end.

(** index.js 274-293. *)
Definition getBotUsername (env : Env) : M value :=
  cached <- get_cached ;;
  match configured cached with
  | Some u => ret (VStr u)
  | None =>
      match configured (TELEGRAM_BOT_TOKEN env) with
      | None => ret VNull
      | Some token =>
          answer <- try_catch
            (let url := "https://api.telegram.org/bot" +:+ token +:+ "/getMe" in
             res <- js_fetch GetMe Http url VUndef ;;
             data <- res_json res ;;
             ok <- prop data "ok" ;;
             if truthy ok then
               result <- prop data "result" ;;
               username <- prop result "username" ;;
               if truthy username then
                 let u := "@" +:+ to_string username in
                 set_cached u ;;; ret (Some u)
               else ret None
             else ret None)
            (fun _ => ret None) ;;
          match answer with
          | Some u => ret (VStr u)
          | None => ret VNull
          end
      end
  end.

(* ================================================================== *)
(** ** [src/utils/loyalteez.js]: LoyalteezClient *)
(* ================================================================== *)

Record LoyalteezClient : Type := {
  brandId : option string;
  apiUrl : string;
  endpoint_url : string;
  pregenerationEndpoint : string;
  eventHandler : bool;
  pregeneration : bool
}.

(** loyalteez.js 15-22. *)
Definition new_LoyalteezClient (brand api : option string) (eh pg : bool) : LoyalteezClient :=
  let base := match configured api with
              | Some u => u
              | None => "https://api.loyalteez.app"
              end in
  {| brandId := brand;
     apiUrl := base;
     endpoint_url := base +:+ "/loyalteez-api/manual-event";
     pregenerationEndpoint := base +:+ "/loyalteez-api/pregenerate-user";
     eventHandler := eh;
     pregeneration := pg |}.

(** loyalteez.js 30-108.  [None] from the first block means that the
    binding is absent or that its attempt failed. *)
Definition ensureWallet (c : LoyalteezClient) (userEmail : string) : M value :=
  let payload := VObj [("email", VStr userEmail); ("brand_id", env_value (brandId c))] in
  first <-
    (if pregeneration c then
       try_catch
         (response <- js_fetch PregenerateUser PregenerationBinding
                        "https://api.loyalteez.app/loyalteez-api/pregenerate-user"
                        (post_init json_headers payload) ;;
          data <- try_catch (res_json response)
                    (fun _ => throw ("Pregeneration returned invalid JSON: "
                                     +:+ pretty (up_status response))) ;;
          if negb (up_ok response) then
            err <- prop data "error" ;;
            throw (to_string (or_else err
                     (VStr ("Pregeneration returned " +:+ pretty (up_status response)))))
          else
            wallet <- prop data "wallet_address" ;;
            ret (Some wallet))
         (fun _ => ret None)
     else ret None) ;;
  match first with
  | Some wallet => ret wallet
  | None =>
      try_catch
        (response <- js_fetch PregenerateUser Http (pregenerationEndpoint c)
                       (post_init json_headers_ua payload) ;;
         data <- try_catch (res_json response)
                   (fun _ => throw ("Pregeneration returned non-JSON response: "
                                    +:+ pretty (up_status response))) ;;
         if negb (up_ok response) then
           err <- prop data "error" ;;
           throw (to_string (or_else err
                    (VStr ("Pregeneration returned " +:+ pretty (up_status response)))))
         else prop data "wallet_address")
        (fun _ => ret VNull)
  end.

(** loyalteez.js 121-219.  In the binding block the text of a thrown
    error is only logged by the enclosing [catch]; the model leaves the
    serialised [data.errors] out of it. *)
Definition sendEvent (c : LoyalteezClient) (eventType : value) (userEmail : string)
    (metadata : list (string * value)) : M value :=
  try_catch (_ <- ensureWallet c userEmail ;; ret tt) (fun _ => ret tt) ;;;
  match configured (brandId c) with
  | None => throw "Loyalteez Brand ID is not configured."
  | Some _ =>
      timestamp <- get_now ;;
      let payload :=
        VObj [("brandId", env_value (brandId c));
              ("eventType", eventType);
              ("userEmail", VStr userEmail);
              ("domain", VStr "telegram.loyalteez.app");
              ("metadata", VObj ([("platform", VStr "telegram");
                                  ("timestamp", VStr timestamp)] ++ metadata))] in
      first <-
        (if eventHandler c then
           try_catch
             (response <- js_fetch ManualEvent EventHandlerBinding
                            "https://api.loyalteez.app/loyalteez-api/manual-event"
                            (post_init json_headers payload) ;;
              data <- try_catch (res_json response)
                        (fun _ => throw ("Service binding returned invalid JSON: "
                                         +:+ pretty (up_status response))) ;;
              if negb (up_ok response) then
                err <- prop data "error" ;;
                _ <- prop data "errors" ;;
                throw (to_string (or_else err
                         (VStr ("API returned " +:+ pretty (up_status response)))))
              else ret (Some data))
             (fun _ => ret None)
         else ret None) ;;
      match first with
      | Some data => ret data
      | None =>
          try_catch
            (response <- js_fetch ManualEvent Http (endpoint_url c)
                           (post_init json_headers_ua payload) ;;
             data <- try_catch (res_json response)
                       (fun _ => throw ("API returned non-JSON response: "
                                        +:+ pretty (up_status response) +:+ " "
                                        +:+ up_statusText response)) ;;
             if negb (up_ok response) then
               err <- prop data "error" ;;
               throw (to_string (or_else err
                        (VStr ("API returned " +:+ pretty (up_status response)))))
             else ret data)
            (fun message => throw message)
      end
  end.

(* ================================================================== *)
(** ** [src/index.js]: triggerReward, escapeHtml, resolveEventId *)
(* ================================================================== *)

Definition failure (error : value) : value :=
  VObj [("success", VBool false); ("error", error)].

(** index.js 299-335. *)
Definition triggerReward (env : Env) (eventType user chatId : value) : M value :=
  match configured (BRAND_ID env) with
  | None => ret (failure (VStr "Bot configuration error"))
  | Some _ =>
      uid <- prop user "id" ;;
      let userEmail := "telegram_" +:+ to_string uid +:+ "@loyalteez.app" in
      botUsername <- getBotUsername env ;;
      let loyalteez :=
        new_LoyalteezClient (BRAND_ID env) (LOYALTEEZ_API_URL env)
          (EVENT_HANDLER env) (PREGENERATION env) in
      try_catch
        (username <- prop user "username" ;;
         first_name <- prop user "first_name" ;;
         last_name <- prop user "last_name" ;;
         sendEvent loyalteez eventType userEmail
           [("username", username);
            ("first_name", first_name);
            ("last_name", last_name);
            ("chat_id", chatId);
            ("bot_username", botUsername)])
        (fun message =>
           ret (failure (or_else (VStr message) (VStr "Failed to process reward"))))
  end.

(** index.js 340-347. *)
Definition escapeHtml (text : value) : string :=
  if negb (truthy text) then ""
  else
    replace_all "034"%char "&quot;"
      (replace_all ">"%char "&gt;"
         (replace_all "<"%char "&lt;"
            (replace_all "&"%char "&amp;" (to_string text)))).

(** [encodeURIComponent] on the UTF-8 bytes of the string. *)
Definition uri_unreserved (c : ascii) : bool :=
  let n := Z.of_nat (nat_of_ascii c) in
  ((65 <=? n) && (n <=? 90)) || ((97 <=? n) && (n <=? 122))
  || ((48 <=? n) && (n <=? 57))
  || existsb (Ascii.eqb c)
       ["-"; "_"; "."; "!"; "~"; "*"; "'"; "("; ")"]%char.

Definition hex_digit (n : nat) : ascii :=
  nth n ["0"; "1"; "2"; "3"; "4"; "5"; "6"; "7";
         "8"; "9"; "A"; "B"; "C"; "D"; "E"; "F"]%char "0"%char.

Fixpoint encodeURIComponent (s : string) : string :=
  match s with
  | EmptyString => EmptyString
  | String c rest =>
      if uri_unreserved c then String c (encodeURIComponent rest)
      else
        let n := nat_of_ascii c in
        String "%"%char
          (String (hex_digit (Nat.div n 16))
             (String (hex_digit (Nat.modulo n 16)) (encodeURIComponent rest)))
  end.

(** The loop of index.js 391-404: the identifier of the first entry
    that matches, if the loop returns from inside. *)
Fixpoint find_config (friendlyName : string) (configs : list value) : M (option value) :=
  match configs with
  | [] => ret None
  | config :: rest =>
      mapping <- prop config "eventNameMapping" ;;
      if strict_eq_str mapping friendlyName then
        eventId <- prop config "eventId" ;;
        eventType <- prop config "eventType" ;;
        ret (Some (or_else eventId eventType))
      else
        eventType <- prop config "eventType" ;;
        if strict_eq_str eventType friendlyName then
          eventId <- prop config "eventId" ;;
          ret (Some (or_else eventId eventType))
        else find_config friendlyName rest
  end.

(** index.js 353-413. *)
Definition resolveEventId (env : Env) (friendlyName : string) : M value :=
  if String.prefix "custom_" friendlyName then ret (VStr friendlyName)
  else
    match configured (BRAND_ID env) with
    | None => ret (VStr friendlyName)
    | Some brand =>
        try_catch
          (let base := match configured (LOYALTEEZ_API_URL env) with
                       | Some u => u
                       | None => "https://api.loyalteez.app"
                       end in
           let configUrl := base +:+ "/loyalteez-api/event-config?brandId="
                            +:+ encodeURIComponent brand in
           response <- js_fetch EventConfig Http configUrl
                         (VObj [("headers", json_headers)]) ;;
           if negb (up_ok response) then ret (VStr friendlyName)
           else
             data <- res_json response ;;
             events <- prop data "events" ;;
             let configs := or_else events (VArr []) in
             items <- iter_of configs ;;
             found <- find_config friendlyName items ;;
             match found with
             | Some resolvedId => ret resolvedId
             | None => ret (VStr friendlyName)
             end)
          (fun _ => ret (VStr friendlyName))
    end.

(* ================================================================== *)
(** ** [src/index.js]: handleMessage *)
(* ================================================================== *)

Definition msg_join_not_configured : string :=
  "⚠️ Join reward not configured. Admin: Use /config_join <event_id> to set up.".

Definition msg_checkin_not_configured : string :=
  "⚠️ Daily check-in not configured. Admin: Use /config_checkin <event_id> to set up."
  +:+ nl +:+ nl +:+ "Create an event in Partner Portal with " +:+ dq
  +:+ "Telegram Bot Interaction" +:+ dq
  +:+ " detection, then use the generated event ID.".

Definition msg_cooldown : string :=
  "⏳ You've already checked in today. Come back tomorrow!".

Definition msg_event_not_found (checkinEventId : value) : string :=
  "❌ Event " +:+ dq +:+ to_string checkinEventId +:+ dq
  +:+ " not found or inactive. Admin: Verify the event ID in Partner Portal.".

Definition msg_checkin_failed (error : value) : string :=
  "❌ Check-in failed: " +:+ to_string (or_else error (VStr "Unknown error")).

Definition msg_balance : string :=
  "💰 View your LTZ balance and spend tokens here:" +:+ nl
  +:+ "https://perks.loyalteez.app".

Definition msg_only_admins : string := "❌ Only admins can configure the bot.".

Definition msg_kv_missing : string :=
  "❌ KV Storage not configured. Cannot save settings.".

Definition msg_start : string :=
  "👋 Welcome to the community loyalty bot!" +:+ nl +:+ nl
  +:+ "Commands:" +:+ nl
  +:+ "/checkin - Earn daily points" +:+ nl
  +:+ "/balance - Check your balance" +:+ nl +:+ nl
  +:+ "Admins:" +:+ nl
  +:+ "/config_checkin <event_id> - Set daily event ID" +:+ nl
  +:+ "/config_join <event_id> - Set join event ID" +:+ nl +:+ nl
  +:+ "📖 Setup: Create events in Partner Portal with " +:+ dq
  +:+ "Telegram Bot Interaction" +:+ dq
  +:+ " detection, then configure the bot with the generated event IDs.".

(** The two admin commands (index.js 173-202 and 207-236) are the same
    block up to the key prefix and the texts. *)
Inductive config_kind : Type := Checkin | Join.

Definition config_command (k : config_kind) : string :=
  match k with
  | Checkin => "/config_checkin"
  | Join => "/config_join"
  end.

Definition config_key (k : config_kind) (chatId : value) : string :=
  match k with
  | Checkin => "CHECKIN_EVENT_ID:" +:+ to_string chatId
  | Join => "JOIN_EVENT_ID:" +:+ to_string chatId
  end.

Definition msg_usage (k : config_kind) : string :=
  "❌ Usage: " +:+ config_command k +:+ " <event_id_or_friendly_name>" +:+ nl +:+ nl
  +:+ "You can use:" +:+ nl
  +:+ "- Custom event ID: <code>custom_4748e22F_1763993617509</code>" +:+ nl
  +:+ "- Friendly name: <code>"
  +:+ match k with Checkin => "daily_checkin" | Join => "telegram_join" end
  +:+ "</code>".

Definition msg_configured (k : config_kind) (inputName : string) (resolvedEventId : value)
  : string :=
  match k with
  | Checkin => "✅ Daily check-in event configured!"
  | Join => "✅ Join event configured!"
  end
  +:+ nl +:+ nl +:+ "Friendly name: <code>" +:+ escapeHtml (VStr inputName)
  +:+ "</code>" +:+ nl +:+ "Maps to: <code>" +:+ escapeHtml resolvedEventId +:+ "</code>".

Definition msg_updated (k : config_kind) (resolvedEventId : value) : string :=
  match k with
  | Checkin => "✅ Daily check-in event updated to: <code>"
  | Join => "✅ Join event updated to: <code>"
  end
  +:+ escapeHtml resolvedEventId +:+ "</code>".

(** index.js 105-128, entered when [message.new_chat_members] is truthy. *)
Definition join_branch (env : Env) (chatId new_chat_members : value) : M unit :=
  joinEventId <-
    (if TELEGRAM_BOT_KV env then kv_get ("JOIN_EVENT_ID:" +:+ to_string chatId)
     else ret VNull) ;;
  if negb (truthy joinEventId) then
    sendMessage env chatId msg_join_not_configured
  else
    members <- iter_of new_chat_members ;;
    for_each members (fun member =>
      is_bot <- prop member "is_bot" ;;
      if truthy is_bot then ret tt
      else
        result <- triggerReward env joinEventId member chatId ;;
        success <- prop result "success" ;;
        if truthy success then
          first_name <- prop member "first_name" ;;
          ltz <- prop result "ltzDistributed" ;;
          sendMessage env chatId
            ("Welcome " +:+ to_string first_name +:+ "! You've earned "
             +:+ to_string (or_else ltz (VStr "LTZ")) +:+ " tokens for joining.")
        else
          first_name <- prop member "first_name" ;;
          sendMessage env chatId
            ("Welcome " +:+ to_string first_name +:+ "! (Reward processing...)")).

(** What index.js 147-158 sends for the result of the reward trigger. *)
Definition checkin_reply (env : Env) (chatId checkinEventId result : value) : M unit :=
  success <- prop result "success" ;;
  if truthy success then
    ltz <- prop result "ltzDistributed" ;;
    amount <- prop result "rewardAmount" ;;
    sendMessage env chatId
      ("✅ Daily check-in complete! "
       +:+ to_string (or_else (or_else ltz amount) (VStr "LTZ"))
       +:+ " sent to your wallet.")
  else
    error <- prop result "error" ;;
    cooldown <- opt_includes error "cooldown" ;;
    if cooldown then sendMessage env chatId msg_cooldown
    else
      not_found <- opt_includes error "not found" ;;
      invalid <- (if not_found then ret true else opt_includes error "Invalid event") ;;
      if invalid then sendMessage env chatId (msg_event_not_found checkinEventId)
      else sendMessage env chatId (msg_checkin_failed error).

(** index.js 133-160, entered when the text starts with [/checkin]. *)
Definition checkin_branch (env : Env) (chatId user : value) : M unit :=
  checkinEventId <-
    (if TELEGRAM_BOT_KV env then kv_get ("CHECKIN_EVENT_ID:" +:+ to_string chatId)
     else ret VNull) ;;
  if negb (truthy checkinEventId) then
    sendMessage env chatId msg_checkin_not_configured
  else
    result <- triggerReward env checkinEventId user chatId ;;
    checkin_reply env chatId checkinEventId result.

(** index.js 173-202 ([Checkin]) and 207-236 ([Join]). *)
Definition config_branch (k : config_kind) (env : Env) (chatId user : value)
    (text : string) : M unit :=
  userId <- prop user "id" ;;
  admin <- isAdmin env chatId userId ;;
  if negb admin then sendMessage env chatId msg_only_admins
  else
    match split_space text with
    | _ :: inputName :: _ =>
        resolvedEventId <- resolveEventId env inputName ;;
        if TELEGRAM_BOT_KV env then
          kv_put (config_key k chatId) resolvedEventId ;;;
          if negb (strict_eq_str resolvedEventId inputName) then
            sendMessage env chatId (msg_configured k inputName resolvedEventId)
          else
            sendMessage env chatId (msg_updated k resolvedEventId)
        else sendMessage env chatId msg_kv_missing
    | _ => sendMessage env chatId (msg_usage k)
    end.

(** index.js 105-245: the chain of branches, the first that applies
    runs.  [text] is [message.text || ""]; where it is split it is a
    string, since [startsWith] has returned. *)
Definition route (env : Env) (chatId user text new_chat_members : value) : M unit :=
  if truthy new_chat_members then join_branch env chatId new_chat_members
  else
    is_checkin <- starts_with text "/checkin" ;;
    if is_checkin then checkin_branch env chatId user
    else
      is_balance <- starts_with text "/balance" ;;
      is_ltz <- starts_with text "/ltz" ;;
      if is_balance || is_ltz then sendMessage env chatId msg_balance
      else
        is_config_checkin <- starts_with text "/config_checkin" ;;
        if is_config_checkin then config_branch Checkin env chatId user (to_string text)
        else
          is_config_join <- starts_with text "/config_join" ;;
          if is_config_join then config_branch Join env chatId user (to_string text)
          else
            is_start <- starts_with text "/start" ;;
            if is_start then sendMessage env chatId msg_start
            else ret tt.

(** index.js 94-245. *)
Definition handleMessage (env : Env) (message : value) : M unit :=
  chat <- prop message "chat" ;;
  chatId <- prop chat "id" ;;
  user <- prop message "from" ;;
  text0 <- prop message "text" ;;
  let text := or_else text0 (VStr "") in
  is_bot <- prop user "is_bot" ;;
  if truthy is_bot then ret tt
  else
    new_chat_members <- prop message "new_chat_members" ;;
    route env chatId user text new_chat_members.

(** index.js 84-92. *)
Definition handleUpdate (env : Env) (update : value) : M unit :=
  message <- prop update "message" ;;
  if truthy message then handleMessage env message else ret tt.

(* ================================================================== *)
(** ** [src/index.js]: the request handler *)
(* ================================================================== *)

(** The parts of the inbound request that the handler reads:
    [request.method], [url.pathname], [url.searchParams.get("secret")]
    ([None] for [null]) and the outcome of [request.json()]: the parsed
    document, or the message of the [SyntaxError] that the parser raises
    on a body that is not JSON. *)
Record Request : Type := {
  method : string;
  pathname : string;
  secret_param : option string;
  body_json : outcome value
}.

Inductive ResponseBody : Type :=
| NoBody
| Text (s : string)
| Json (v : value).

Record Response : Type := {
  status : Z;
  body : ResponseBody;
  headers : list (string * string)
}.

Definition corsHeaders : list (string * string) :=
  [("Access-Control-Allow-Origin", "*");
   ("Access-Control-Allow-Methods", "GET, POST, OPTIONS");
   ("Access-Control-Allow-Headers", "Content-Type")].

Definition request_json (request : Request) : M value :=
  match body_json request with
  | Ok v => ret v
  | Throw message => throw message
  end.

(** [env.WEBHOOK_SECRET && url.searchParams.get("secret") !== env.WEBHOOK_SECRET]. *)
Definition secret_rejected (env : Env) (request : Request) : bool :=
  match configured (WEBHOOK_SECRET env) with
  | None => false
  | Some expected =>
      match secret_param request with
      | Some given => negb (String.eqb given expected)
      | None => true
      end
  end.

Definition health_document (env : Env) (timestamp : string) : value :=
  VObj [("status", VStr "healthy");
        ("service", VStr "telegram-loyalty-bot");
        ("timestamp", VStr timestamp);
        ("config",
         VObj [("brandId",
                VStr (match configured (BRAND_ID env) with
                      | Some _ => "configured"
                      | None => "missing"
                      end));
               ("apiUrl",
                VStr (match configured (LOYALTEEZ_API_URL env) with
                      | Some u => u
                      | None => "https://api.loyalteez.app"
                      end));
               ("kvConfigured", VBool (TELEGRAM_BOT_KV env));
               ("tokenConfigured",
                VBool (match configured (TELEGRAM_BOT_TOKEN env) with
                       | Some _ => true
                       | None => false
                       end))])].

(** index.js 28-81. *)
Definition fetch (env : Env) (request : Request) : M Response :=
  if String.eqb (method request) "OPTIONS" then
    ret {| status := 200; body := NoBody; headers := corsHeaders |}
  else if String.eqb (method request) "GET" && String.eqb (pathname request) "/health" then
    timestamp <- get_now ;;
    ret {| status := 200;
           body := Json (health_document env timestamp);
           headers := corsHeaders ++ [("Content-Type", "application/json")] |}
  else if negb (String.eqb (method request) "POST") then
    ret {| status := 405; body := Text "Method not allowed"; headers := [] |}
  else if secret_rejected env request then
    ret {| status := 401; body := Text "Unauthorized"; headers := [] |}
  else
    try_catch
      (update <- request_json request ;;
       handleUpdate env update ;;;
       ret {| status := 200; body := Text "OK"; headers := [] |})
      (fun message =>
         ret {| status := 500;
                body := Json (VObj [("error", VStr "Internal server error");
                                    ("message", VStr message)]);
                headers := [("Content-Type", "application/json")] |}).

(* ================================================================== *)
(** ** Vocabulary of the statements *)
(* ================================================================== *)

(** The request that [sendMessage] makes when a token is configured. *)
Definition message_sent (token : string) (chatId : value) (text : string) : event :=
  Fetched SendMessage Http ("https://api.telegram.org/bot" +:+ token +:+ "/sendMessage")
    (post_init json_headers
       (VObj [("chat_id", chatId);
              ("text", VStr text);
              ("parse_mode", VStr "HTML");
              ("disable_web_page_preview", VBool true)])).

(** An outbound request issued from one of the call sites [sites]. *)
Definition calls (sites : list endpoint) (e : event) : Prop :=
  match e with
  | Fetched site _ _ _ => In site sites
  | KvGet _ | KvPut _ _ => False
  end.

(** [s'] is [s] after some operations that all satisfy [P], none of
    them a write to the KV namespace. *)
Definition extends_by (P : event -> Prop) (s s' : state) : Prop :=
  kv s' = kv s /\ exists evs, trace s' = trace s ++ evs /\ Forall P evs.

Definition only_emits {A} (P : event -> Prop) (m : M A) : Prop :=
  forall w s, extends_by P s (snd (m w s)).

Definition never_throws {A} (m : M A) : Prop :=
  forall w s, exists a, fst (m w s) = Ok a.



(** An entry of the listing that the loop of [resolveEventId] returns
    from: its [eventNameMapping] or its [eventType] is the name. *)
Definition entry_matches (friendlyName : string) (config : value) : bool :=
  match get_prop config "eventNameMapping", get_prop config "eventType" with
  | Ok mapping, Ok eventType =>
      strict_eq_str mapping friendlyName || strict_eq_str eventType friendlyName
  | _, _ => false
  end.


Definition with_body (b : outcome value) (request : Request) : Request :=
  {| method := method request;
     pathname := pathname request;
     secret_param := secret_param request;
     body_json := b |}.

(** *** Concrete configurations and inputs *)

Definition demo_env : Env :=
  {| TELEGRAM_BOT_TOKEN := Some "123:abc";
     BRAND_ID := Some "0xBrand";
     LOYALTEEZ_API_URL := None;
     WEBHOOK_SECRET := Some "s3cret";
     TELEGRAM_BOT_KV := true;
     EVENT_HANDLER := false;
     PREGENERATION := false |}.

Definition env_without_token : Env :=
  {| TELEGRAM_BOT_TOKEN := None;
     BRAND_ID := Some "0xBrand";
     LOYALTEEZ_API_URL := None;
     WEBHOOK_SECRET := None;
     TELEGRAM_BOT_KV := true;
     EVENT_HANDLER := false;
     PREGENERATION := false |}.

Definition env_without_brand : Env :=
  {| TELEGRAM_BOT_TOKEN := Some "123:abc";
     BRAND_ID := None;
     LOYALTEEZ_API_URL := None;
     WEBHOOK_SECRET := None;
     TELEGRAM_BOT_KV := true;
     EVENT_HANDLER := false;
     PREGENERATION := false |}.

(** A world in which every request fails at the transport. *)
Definition offline : world :=
  {| net := fun _ _ => Rejects "network error";
     now := "2025-01-01T00:00:00.000Z";
     string_gt_zero := fun _ => false |}.

Definition initial_state : state :=
  {| kv := ∅; cachedBotUsername := None; trace := [] |}.

Definition person (id : Z) : value :=
  VObj [("id", VNum id); ("is_bot", VBool false); ("first_name", VStr "Ana")].

Definition text_message (chatId : Z) (from : value) (text : string) : value :=
  VObj [("chat", VObj [("id", VNum chatId)]); ("from", from); ("text", VStr text)].

Definition post (secret : option string) (b : outcome value) : Request :=
  {| method := "POST"; pathname := "/"; secret_param := secret; body_json := b |}.

(** The three answers of the request handler to a POST. *)
Definition unauthorized : Response :=
  {| status := 401; body := Text "Unauthorized"; headers := [] |}.

Definition acknowledged : Response :=
  {| status := 200; body := Text "OK"; headers := [] |}.

Definition internal_error (message : string) : Response :=
  {| status := 500;
     body := Json (VObj [("error", VStr "Internal server error");
                         ("message", VStr message)]);
     headers := [("Content-Type", "application/json")] |}.


Definition checkin_configured : state :=
  {| kv := <["CHECKIN_EVENT_ID:-100" := "custom_abc123"]> ∅;
     cachedBotUsername := None;
     trace := [] |}.

(** What [handleMessage] reads from a message before it routes it, when
    no read throws and the sender is not a bot: the chat id, the sender,
    [message.text || ""] and [message.new_chat_members]. *)
Record reads (message chatId user text new_chat_members : value) : Prop := {
  reads_chat :
    exists chat, get_prop message "chat" = Ok chat /\ get_prop chat "id" = Ok chatId;
  reads_from : get_prop message "from" = Ok user;
  reads_text :
    exists text0, get_prop message "text" = Ok text0 /\ or_else text0 (VStr "") = text;
  reads_not_bot :
    exists is_bot, get_prop user "is_bot" = Ok is_bot /\ truthy is_bot = false;
  reads_members : get_prop message "new_chat_members" = Ok new_chat_members
}.

(** The request of the resolver to the event-config listing. *)
Definition listing_request (env : Env) (brand : string) : event :=
  Fetched EventConfig Http
    (match configured (LOYALTEEZ_API_URL env) with
     | Some u => u
     | None => "https://api.loyalteez.app"
     end +:+ "/loyalteez-api/event-config?brandId=" +:+ encodeURIComponent brand)
    (VObj [("headers", json_headers)]).

(** The listing query failed: transport error, status outside 200-299,
    or a body that is not JSON. *)
Definition query_failed (answer : fetch_result) : Prop :=
  match answer with
  | Rejects _ => True
  | Resolves r => up_ok r = false \/ up_json r = None
  end.

(** The entries that the resolver walks through: the elements of
    [data.events || []] of a successful answer, none otherwise. *)
Definition listing_entries (answer : fetch_result) : list value :=
  match answer with
  | Rejects _ => []
  | Resolves r =>
      if up_ok r then
        match up_json r with
        | Some data =>
            match get_prop data "events" with
            | Ok events =>
                match iterate (or_else events (VArr [])) with
                | Ok items => items
                | Throw _ => []
                end
            | Throw _ => []
            end
        | None => []
        end
      else []
  end.

(** The text sent for a failed check-in whose error is the string [e],
    in the words of the specification: cooldown first, then not found or
    invalid event, then the generic text. *)
Definition checkin_failure_text (checkinEventId : value) (e : string) : string :=
  if includes "cooldown" e then msg_cooldown
  else if includes "not found" e || includes "Invalid event" e
       then msg_event_not_found checkinEventId
       else msg_checkin_failed (VStr e).

(** A world in which Telegram and the rewards API answer: the listing
    has one event with the friendly name [daily_checkin], the sender is
    an administrator, and the reward is refused for a cooldown. *)
Definition json_answer (code : Z) (v : value) : fetch_result :=
  Resolves {| up_status := code; up_statusText := ""; up_json := Some v |}.

Definition demo_world : world :=
  {| net := fun _ e =>
       match e with
       | Fetched EventConfig _ _ _ =>
           json_answer 200
             (VObj [("events",
                     VArr [VObj [("eventId", VStr "custom_abc123");
                                 ("eventType", VStr "custom_abc123");
                                 ("eventNameMapping", VStr "daily_checkin")]])])
       | Fetched GetChatMember _ _ _ =>
           json_answer 200
             (VObj [("ok", VBool true);
                    ("result", VObj [("status", VStr "administrator")])])
       | Fetched GetMe _ _ _ =>
           json_answer 200
             (VObj [("ok", VBool true);
                    ("result", VObj [("username", VStr "loyalty_bot")])])
       | Fetched PregenerateUser _ _ _ =>
           json_answer 200 (VObj [("wallet_address", VStr "0xabc")])
       | Fetched ManualEvent _ _ _ =>
           json_answer 429 (VObj [("error", VStr "Event is on cooldown for this user")])
       | Fetched SendMessage _ _ _ => json_answer 200 (VObj [("ok", VBool true)])
       | KvGet _ | KvPut _ _ => Rejects "not a request"
       end;
     now := "2025-01-01T00:00:00.000Z";
     string_gt_zero := fun _ => false |}.



(** The state after [events] were performed without writing to the KV
    namespace or to the cache. *)
Definition after (events : list event) (s : state) : state :=
  {| kv := kv s; cachedBotUsername := cachedBotUsername s; trace := trace s ++ events |}.




(** The event type that a request to the manual-event endpoint asks a
    reward for. *)
Definition requested_event_type (e : event) : option value :=
  match e with
  | Fetched ManualEvent _ _ (VObj init) =>
      match own_prop "body" init with
      | VObj payload => Some (own_prop "eventType" payload)
      | _ => None
      end
  | _ => None
  end.

(** What a reward trigger for the identifier [R] and the reply to it
    may do: requests to Telegram and to the pregeneration endpoint, and
    requests to the manual-event endpoint for exactly [R].  No request
    to the event-config listing, no access to the KV namespace. *)
Definition triggers_only (R : string) (e : event) : Prop :=
  match e with
  | Fetched ManualEvent _ _ _ => requested_event_type e = Some (VStr R)
  | Fetched EventConfig _ _ _ => False
  | Fetched _ _ _ _ => True
  | KvGet _ | KvPut _ _ => False
  end.





(** The request of the admin check to the membership-status endpoint. *)
Definition membership_request (token : string) (chatId userId : value) : event :=
  Fetched GetChatMember Http
    ("https://api.telegram.org/bot" +:+ token
     +:+ "/getChatMember?chat_id=" +:+ to_string chatId
     +:+ "&user_id=" +:+ to_string userId)
    VUndef.

(** The request of [getBotUsername]. *)
Definition identity_request (token : string) : event :=
  Fetched GetMe Http ("https://api.telegram.org/bot" +:+ token +:+ "/getMe") VUndef.

(** An operation that is not a write to the KV namespace, and that
    reads no key but the two keys of the chat [chatId]. *)
Definition reads_only (chatId : value) (e : event) : Prop :=
  match e with
  | KvGet key =>
      key = "JOIN_EVENT_ID:" +:+ to_string chatId
      \/ key = "CHECKIN_EVENT_ID:" +:+ to_string chatId
  | KvPut _ _ => False
  | Fetched _ _ _ _ => True
  end.

(** A text message from user 7 in the group chat -100. *)
Definition group_message (text : string) : value :=
  text_message (-100) (person 7) text.


(** The JSON body of an answer with a status in 200-299, if the answer
    is one. *)
Definition accepted (answer : fetch_result) : option value :=
  match answer with
  | Resolves r => if up_ok r then up_json r else None
  | Rejects _ => None
  end.

(** The two requests of [ensureWallet]. *)
Definition wallet_payload (c : LoyalteezClient) (userEmail : string) : value :=
  VObj [("email", VStr userEmail); ("brand_id", env_value (brandId c))].

Definition wallet_request (via : channel) (c : LoyalteezClient) (userEmail : string) : event :=
  match via with
  | Http =>
      Fetched PregenerateUser Http (pregenerationEndpoint c)
        (post_init json_headers_ua (wallet_payload c userEmail))
  | _ =>
      Fetched PregenerateUser PregenerationBinding
        "https://api.loyalteez.app/loyalteez-api/pregenerate-user"
        (post_init json_headers (wallet_payload c userEmail))
  end.

(** The two requests of [sendEvent]. *)
Definition reward_payload (c : LoyalteezClient) (eventType : value) (userEmail : string)
    (metadata : list (string * value)) (timestamp : string) : value :=
  VObj [("brandId", env_value (brandId c));
        ("eventType", eventType);
        ("userEmail", VStr userEmail);
        ("domain", VStr "telegram.loyalteez.app");
        ("metadata", VObj ([("platform", VStr "telegram");
                            ("timestamp", VStr timestamp)] ++ metadata))].

Definition reward_request (via : channel) (c : LoyalteezClient) (eventType : value)
    (userEmail : string) (metadata : list (string * value)) (timestamp : string) : event :=
  match via with
  | Http =>
      Fetched ManualEvent Http (endpoint_url c)
        (post_init json_headers_ua (reward_payload c eventType userEmail metadata timestamp))
  | _ =>
      Fetched ManualEvent EventHandlerBinding
        "https://api.loyalteez.app/loyalteez-api/manual-event"
        (post_init json_headers (reward_payload c eventType userEmail metadata timestamp))
  end.

(** A client with both service bindings, and a world in which the
    bindings answer and the public endpoints are unreachable. *)
Definition bound_client : LoyalteezClient :=
  new_LoyalteezClient (Some "0xBrand") None true true.

Definition unbound_client : LoyalteezClient :=
  new_LoyalteezClient (Some "0xBrand") None false false.

Definition bindings_only : world :=
  {| net := fun _ e =>
       match e with
       | Fetched PregenerateUser PregenerationBinding _ _ =>
           json_answer 200 (VObj [("wallet_address", VStr "0xabc")])
       | Fetched ManualEvent EventHandlerBinding _ _ =>
           json_answer 200 (VObj [("success", VBool true); ("ltzDistributed", VNum 10)])
       | _ => Rejects "unreachable"
       end;
     now := "2025-01-01T00:00:00.000Z";
     string_gt_zero := fun _ => false |}.

(** A world in which the bindings fail and the public endpoints answer:
    the reward is refused with status 400. *)
Definition bindings_down : world :=
  {| net := fun _ e =>
       match e with
       | Fetched _ Http _ _ =>
           json_answer 400 (VObj [("error", VStr "Invalid event type")])
       | _ => Rejects "binding failed"
       end;
     now := "2025-01-01T00:00:00.000Z";
     string_gt_zero := fun _ => false |}.


(** What [sendEvent] makes of the answer of the public manual-event
    endpoint: the JSON body of a 2xx answer, or an error whose message
    is the transport error, the text about a body that is not JSON, or
    [data.error] (by default the text about the status). *)
Definition public_verdict (answer : fetch_result) : outcome value :=
  match answer with
  | Rejects message => Throw message
  | Resolves r =>
      match up_json r with
      | None =>
          Throw ("API returned non-JSON response: " +:+ pretty (up_status r)
                 +:+ " " +:+ up_statusText r)
      | Some data =>
          if up_ok r then Ok data
          else match get_prop data "error" with
               | Ok err =>
                   Throw (to_string (or_else err
                            (VStr ("API returned " +:+ pretty (up_status r)))))
               | Throw e => Throw e
               end
      end
  end.


(** A new member that the join loop skips: its [is_bot] is truthy. *)
Definition is_bot_member (member : value) : bool :=
  match get_prop member "is_bot" with
  | Ok is_bot => truthy is_bot
  | Throw _ => false
  end.

(** A member whose properties can be read: not [null], not [undefined]. *)
Definition readable (v : value) : bool :=
  match v with
  | VUndef | VNull => false
  | _ => true
  end.

Definition bot_member (id : Z) : value :=
  VObj [("id", VNum id); ("is_bot", VBool true); ("first_name", VStr "Helper")].

Definition join_configured : state :=
  {| kv := <["JOIN_EVENT_ID:-100" := "custom_join"]> ∅;
     cachedBotUsername := None;
     trace := [] |}.

Definition join_message (members : list value) : value :=
  VObj [("chat", VObj [("id", VNum (-100))]);
        ("from", person 7);
        ("new_chat_members", VArr members)].


Definition env_with_bindings : Env :=
  {| TELEGRAM_BOT_TOKEN := Some "123:abc";
     BRAND_ID := Some "0xBrand";
     LOYALTEEZ_API_URL := None;
     WEBHOOK_SECRET := None;
     TELEGRAM_BOT_KV := true;
     EVENT_HANDLER := true;
     PREGENERATION := true |}.





(** What [escapeHtml] makes of one character. *)
Definition escape_char (c : ascii) : string :=
  if Ascii.eqb c "&" then "&amp;"
  else if Ascii.eqb c "<" then "&lt;"
  else if Ascii.eqb c ">" then "&gt;"
  else if Ascii.eqb c "034" then "&quot;"
  else String c EmptyString.

Fixpoint escape_each (s : string) : string :=
  match s with
  | EmptyString => EmptyString
  | String c rest => escape_char c +:+ escape_each rest
  end.

(** The characters with a meaning in Telegram's HTML mode. *)
Definition html_special (c : ascii) : bool :=
  Ascii.eqb c "&" || Ascii.eqb c "<" || Ascii.eqb c ">" || Ascii.eqb c "034".

Definition no_char (bad : ascii -> bool) (s : string) : bool :=
  forallb (fun c => negb (bad c)) (list_ascii_of_string s).


(** A request that names the user by [email] and the brand by [brand],
    if it goes to the rewards API: the two fields of the wallet
    payload, the three fields of the reward payload.  The only other
    request allowed is the one for the bot's own identity. *)
Definition names_user (email : string) (brand : value) (e : event) : Prop :=
  match e with
  | Fetched PregenerateUser _ _ (VObj init) =>
      match own_prop "body" init with
      | VObj payload =>
          own_prop "email" payload = VStr email
          /\ own_prop "brand_id" payload = brand
      | _ => False
      end
  | Fetched ManualEvent _ _ (VObj init) =>
      match own_prop "body" init with
      | VObj payload =>
          own_prop "userEmail" payload = VStr email
          /\ own_prop "brandId" payload = brand
          /\ own_prop "domain" payload = VStr "telegram.loyalteez.app"
      | _ => False
      end
  | Fetched GetMe _ _ _ => True
  | _ => False
  end.

Definition with_secret (secret : option string) (b : outcome value) (request : Request)
  : Request :=
  {| method := method request;
     pathname := pathname request;
     secret_param := secret;
     body_json := b |}.


(** Two environments that the health document cannot tell apart: the
    same API URL and KV binding, and the token and the brand id set in
    both or in neither.  Their values, and the webhook secret, are
    free. *)
Definition same_health_flags (env env' : Env) : Prop :=
  configured (LOYALTEEZ_API_URL env) = configured (LOYALTEEZ_API_URL env')
  /\ TELEGRAM_BOT_KV env = TELEGRAM_BOT_KV env'
  /\ (configured (TELEGRAM_BOT_TOKEN env) = None
      <-> configured (TELEGRAM_BOT_TOKEN env') = None)
  /\ (configured (BRAND_ID env) = None <-> configured (BRAND_ID env') = None).

(** What a worker without a bot token may still do: read the KV
    namespace and ask the rewards API.  No request to Telegram, no
    request to the listing, no write. *)
Definition silent_towards_telegram (e : event) : Prop :=
  match e with
  | KvGet _ => True
  | KvPut _ _ => False
  | Fetched site _ _ _ => site = PregenerateUser \/ site = ManualEvent
  end.

(** The state after [put(key, value)]. *)
Definition stored (key value : string) (s : state) : state :=
  {| kv := <[key := value]> (kv s);
     cachedBotUsername := cachedBotUsername s;
     trace := trace s ++ [KvPut key value] |}.

Definition health_request : Request :=
  {| method := "GET"; pathname := "/health"; secret_param := None;
     body_json := Throw "Unexpected end of JSON input" |}.

Definition other_secrets : Env :=
  {| TELEGRAM_BOT_TOKEN := Some "999:zzz";
     BRAND_ID := Some "0xOther";
     LOYALTEEZ_API_URL := None;
     WEBHOOK_SECRET := None;
     TELEGRAM_BOT_KV := true;
     EVENT_HANDLER := true;
     PREGENERATION := false |}.


(** *** Failing installations and requests for a reward *)















(* ================================================================== *)
(** * Properties *)
(* ================================================================== *)

(** ** The monad *)

Section MonadFacts.
Context {A B : Type}.

Lemma bind_ok (m : M A) (k : A -> M B) w s a s' :
  m w s = (Ok a, s') -> bind m k w s = k a w s'.
Proof. intros H. unfold bind. now rewrite H. Qed.

Lemma bind_throw (m : M A) (k : A -> M B) w s e s' :
  m w s = (Throw e, s') -> bind m k w s = (Throw e, s').
Proof. intros H. unfold bind. now rewrite H. Qed.

Lemma bind_prop (v : value) (key : string) (k : value -> M B) w s x :
  get_prop v key = Ok x -> bind (prop v key) k w s = k x w s.
Proof. intros H. unfold bind, prop, lift. now rewrite H. Qed.

Lemma bind_prop_throw (v : value) (key : string) (k : value -> M B) w s e :
  get_prop v key = Throw e -> bind (prop v key) k w s = (Throw e, s).
Proof. intros H. unfold bind, prop, lift. now rewrite H. Qed.

Lemma bind_ret (a : A) (k : A -> M B) w s : bind (ret a) k w s = k a w s.
Proof. reflexivity. Qed.
End MonadFacts.

(** [sendMessage] never throws and makes at most the one request. *)
Lemma sendMessage_run env chatId text w s :
  sendMessage env chatId text w s =
  (Ok tt,
   match configured (TELEGRAM_BOT_TOKEN env) with
   | None => s
   | Some token => log_event (message_sent token chatId text) s
   end).
Proof.
  unfold sendMessage. destruct (configured (TELEGRAM_BOT_TOKEN env)) as [token|]; [|reflexivity].
  unfold try_catch, bind, js_fetch, message_sent.
  destruct (net w (trace s) _); reflexivity.
Qed.

(** ** C1: the admin check in a private chat *)

(** C1, as stated, fails: without a bot token [isAdmin] answers [false]
    in a private chat (chat id 42 > 0), before looking at the chat id. *)
Lemma C1_counterexample :
  0 < 42 /\
  isAdmin env_without_token (VNum 42) (VNum 7) offline initial_state
  = (Ok false, initial_state).
Proof. split; [lia | reflexivity]. Qed.

(** C1 (amended): when the bot token is configured, [isAdmin] returns
    [true] for every positive chat id and every user id, whatever the
    rest of the configuration and whatever the membership API would
    answer; it makes no request at all. *)
Theorem C1_private_chat_is_admin env token n userId w s :
  configured (TELEGRAM_BOT_TOKEN env) = Some token ->
  0 < n ->
  isAdmin env (VNum n) userId w s = (Ok true, s).
Proof.
  intros Htoken Hn. unfold isAdmin. rewrite Htoken.
  unfold bind, gt_zero.
  replace (0 <? n) with true by (symmetry; apply Z.ltb_lt; exact Hn).
  reflexivity.
Qed.

Lemma C1_private_chat_is_admin_witness :
  isAdmin demo_env (VNum 42) (VNum 7) offline initial_state = (Ok true, initial_state).
Proof.
  apply (C1_private_chat_is_admin demo_env "123:abc" 42 (VNum 7) offline initial_state).
  - reflexivity.
  - lia.
Defined.

(** ** C7 and C8: the request handler before the update is read *)

Lemma secret_rejected_mismatch env request expected :
  configured (WEBHOOK_SECRET env) = Some expected ->
  secret_param request <> Some expected ->
  secret_rejected env request = true.
Proof.
  intros Hsecret Hneq. unfold secret_rejected. rewrite Hsecret.
  destruct (secret_param request) as [given|]; [|reflexivity].
  destruct (String.eqb given expected) eqn:E; [|reflexivity].
  apply String.eqb_eq in E. subst. now contradiction Hneq.
Qed.

(** C7: a POST whose [secret] query parameter differs from the
    configured webhook secret is answered 401, and nothing else happens:
    the state after the call is the state before it (no outbound
    request, no read or write of the KV namespace), and the answer does
    not depend on the body, which is never parsed. *)
Theorem C7_bad_secret_is_rejected env request expected w s :
  method request = "POST" ->
  configured (WEBHOOK_SECRET env) = Some expected ->
  secret_param request <> Some expected ->
  fetch env request w s = (Ok unauthorized, s)
  /\ forall b, fetch env (with_body b request) w s = (Ok unauthorized, s).
Proof.
  intros Hmethod Hsecret Hneq.
  assert (Hgen : forall r, method r = "POST" -> secret_param r = secret_param request ->
                           fetch env r w s = (Ok unauthorized, s)).
  { intros r Hm Hp. unfold fetch. rewrite Hm. cbn [String.eqb Ascii.eqb Bool.eqb andb negb].
    rewrite (secret_rejected_mismatch env r expected Hsecret) by (rewrite Hp; exact Hneq).
    reflexivity. }
  split.
  - apply Hgen; [exact Hmethod | reflexivity].
  - intros b. apply Hgen; [exact Hmethod | reflexivity].
Qed.

Lemma C7_bad_secret_is_rejected_witness :
  fetch demo_env (post (Some "wrong") (Ok (VObj []))) offline initial_state
  = (Ok unauthorized, initial_state).
Proof.
  apply (C7_bad_secret_is_rejected demo_env (post (Some "wrong") (Ok (VObj [])))
           "s3cret" offline initial_state).
  - reflexivity.
  - reflexivity.
  - discriminate.
Defined.

(** C8: every request is answered, and with status 200, 401, 405 or
    500; a request that is neither a POST, nor an OPTIONS, nor a GET of
    [/health] gets 405. *)
Theorem C8_status_codes env request w s :
  exists response s',
    fetch env request w s = (Ok response, s')
    /\ In (status response) [200; 401; 405; 500]
    /\ (method request <> "POST" ->
        method request <> "OPTIONS" ->
        ~ (method request = "GET" /\ pathname request = "/health") ->
        status response = 405).
Proof.
  unfold fetch.
  destruct (String.eqb (method request) "OPTIONS") eqn:Eopt.
  { apply String.eqb_eq in Eopt. eexists _, _. split; [reflexivity|].
    split; [simpl; tauto | intros _ H; contradiction]. }
  destruct (String.eqb (method request) "GET" && String.eqb (pathname request) "/health")
    eqn:Ehealth.
  { apply andb_prop in Ehealth as [Eg Ep].
    apply String.eqb_eq in Eg. apply String.eqb_eq in Ep.
    eexists _, _. split; [reflexivity|].
    split; [simpl; tauto | intros _ _ H; exfalso; apply H; split; assumption]. }
  destruct (String.eqb (method request) "POST") eqn:Epost; cbn [negb].
  2:{ eexists _, _. split; [reflexivity|]. split; [simpl; tauto | reflexivity]. }
  apply String.eqb_eq in Epost.
  destruct (secret_rejected env request).
  { eexists _, _. split; [reflexivity|]. split; [simpl; tauto | intros H; contradiction]. }
  unfold try_catch.
  destruct (bind (request_json request) _ w s) as [[r|e] s'] eqn:Erun.
  - unfold bind in Erun.
    destruct (request_json request w s) as [[u|e1] s1]; [|discriminate].
    destruct (handleUpdate env u w s1) as [[[]|e2] s2]; [|discriminate].
    injection Erun as <- <-.
    eexists _, _. split; [reflexivity|]. split; [simpl; tauto | intros H; contradiction].
  - eexists _, _. split; [reflexivity|]. split; [simpl; tauto | intros H; contradiction].
Qed.

Lemma C8_status_codes_witness :
  exists response s',
    fetch demo_env {| method := "DELETE"; pathname := "/health";
                      secret_param := None;
                      body_json := Throw "Unexpected end of JSON input" |} offline initial_state
    = (Ok response, s')
    /\ status response = 405.
Proof.
  destruct (C8_status_codes demo_env
              {| method := "DELETE"; pathname := "/health";
                 secret_param := None;
                 body_json := Throw "Unexpected end of JSON input" |} offline initial_state)
    as (response & s' & Hrun & _ & H405).
  exists response, s'. split; [exact Hrun|].
  apply H405; simpl; [discriminate | discriminate | intros [H _]; discriminate].
Defined.

(** ** C3: the acknowledgment *)


(** ** Which operations a computation performs *)

Lemma extends_by_refl P s : extends_by P s s.
Proof. split; [reflexivity|]. exists []. split; [now rewrite app_nil_r | constructor]. Qed.

Lemma extends_by_trans P s1 s2 s3 :
  extends_by P s1 s2 -> extends_by P s2 s3 -> extends_by P s1 s3.
Proof.
  intros [Hk1 (e1 & Ht1 & Hp1)] [Hk2 (e2 & Ht2 & Hp2)]. split; [congruence|].
  exists (e1 ++ e2). split.
  - rewrite Ht2, Ht1. now rewrite <- app_assoc.
  - apply Forall_app. split; assumption.
Qed.

Lemma extends_by_log (P : event -> Prop) e s : P e -> extends_by P s (log_event e s).
Proof.
  intros He. split; [reflexivity|]. exists [e]. split; [reflexivity|].
  constructor; [exact He | constructor].
Qed.

Lemma extends_by_weaken (P Q : event -> Prop) s s' :
  (forall e, P e -> Q e) -> extends_by P s s' -> extends_by Q s s'.
Proof.
  intros HPQ [Hk (evs & Ht & Hp)]. split; [exact Hk|]. exists evs. split; [exact Ht|].
  eapply Forall_impl; [exact Hp | exact HPQ].
Qed.

Lemma calls_incl (sites sites' : list endpoint) :
  (forall x, In x sites -> In x sites') -> forall e, calls sites e -> calls sites' e.
Proof. intros Hincl [key|key val|site via url init]; simpl; auto. Qed.

Section Emits.
Context {A B : Type} (P : event -> Prop).

Lemma only_emits_ret (a : A) : only_emits P (ret a).
Proof. intros w s. apply extends_by_refl. Qed.

Lemma only_emits_throw (e : string) : only_emits P (@throw A e).
Proof. intros w s. apply extends_by_refl. Qed.

Lemma only_emits_lift (o : outcome A) : only_emits P (lift o).
Proof. intros w s. apply extends_by_refl. Qed.

Lemma only_emits_bind (m : M A) (k : A -> M B) :
  only_emits P m -> (forall a, only_emits P (k a)) -> only_emits P (bind m k).
Proof.
  intros Hm Hk w s. unfold bind. specialize (Hm w s).
  destruct (m w s) as [[a|e] s']; simpl in *.
  - eapply extends_by_trans; [exact Hm | apply Hk].
  - exact Hm.
Qed.

Lemma only_emits_try_catch (body : M A) (handler : string -> M A) :
  only_emits P body -> (forall e, only_emits P (handler e)) ->
  only_emits P (try_catch body handler).
Proof.
  intros Hb Hh w s. unfold try_catch. specialize (Hb w s).
  destruct (body w s) as [[a|e] s']; simpl in *.
  - exact Hb.
  - eapply extends_by_trans; [exact Hb | apply Hh].
Qed.

Lemma only_emits_weaken (Q : event -> Prop) (m : M A) :
  (forall e, Q e -> P e) -> only_emits Q m -> only_emits P m.
Proof. intros HQP Hm w s. eapply extends_by_weaken; [exact HQP | apply Hm]. Qed.
End Emits.

Lemma only_emits_js_fetch (P : event -> Prop) site via url init :
  P (Fetched site via url init) -> only_emits P (js_fetch site via url init).
Proof.
  intros He w s. unfold js_fetch.
  destruct (net w (trace s) _); simpl; apply extends_by_log; exact He.
Qed.

Lemma only_emits_res_json P r : only_emits P (res_json r).
Proof. unfold res_json. destruct (up_json r); [apply only_emits_ret | apply only_emits_throw]. Qed.

Lemma only_emits_gt_zero P v : only_emits P (gt_zero v).
Proof. intros w s. apply extends_by_refl. Qed.

Lemma only_emits_get_now P : only_emits P get_now.
Proof. intros w s. apply extends_by_refl. Qed.

Lemma only_emits_get_cached P : only_emits P get_cached.
Proof. intros w s. apply extends_by_refl. Qed.

Lemma only_emits_set_cached P u : only_emits P (set_cached u).
Proof.
  intros w s. split; [reflexivity|]. exists []. simpl.
  split; [now rewrite app_nil_r | constructor].
Qed.

Lemma only_emits_opt_includes P v needle : only_emits P (opt_includes v needle).
Proof. destruct v; simpl; first [apply only_emits_ret | apply only_emits_throw]. Qed.

(** One step of a proof that a computation only performs allowed
    operations: follow the structure of the program. *)
Ltac emits_step :=
  lazymatch goal with
  | |- only_emits _ (bind _ _) => apply only_emits_bind; [| intros ?]
  | |- only_emits _ (try_catch _ _) => apply only_emits_try_catch; [| intros ?]
  | |- only_emits _ (ret _) => apply only_emits_ret
  | |- only_emits _ (throw _) => apply only_emits_throw
  | |- only_emits _ (lift _) => apply only_emits_lift
  | |- only_emits _ (prop _ _) => apply only_emits_lift
  | |- only_emits _ (iter_of _) => apply only_emits_lift
  | |- only_emits _ (res_json _) => apply only_emits_res_json
  | |- only_emits _ (gt_zero _) => apply only_emits_gt_zero
  | |- only_emits _ get_now => apply only_emits_get_now
  | |- only_emits _ get_cached => apply only_emits_get_cached
  | |- only_emits _ (set_cached _) => apply only_emits_set_cached
  | |- only_emits _ (opt_includes _ _) => apply only_emits_opt_includes
  | |- only_emits _ (js_fetch _ _ _ _) => apply only_emits_js_fetch; simpl; tauto
  | |- only_emits _ (if ?c then _ else _) => destruct c
  | |- only_emits _ (match ?x with _ => _ end) => destruct x
  end.

Ltac emits_from lemma :=
  eapply only_emits_weaken; [| apply lemma]; apply calls_incl; simpl; tauto.

Lemma sendMessage_emits env chatId text :
  only_emits (calls [SendMessage]) (sendMessage env chatId text).
Proof. unfold sendMessage. repeat emits_step. Qed.

Lemma isAdmin_emits env chatId userId :
  only_emits (calls [GetChatMember]) (isAdmin env chatId userId).
Proof. unfold isAdmin. repeat emits_step. Qed.

Lemma getBotUsername_emits env : only_emits (calls [GetMe]) (getBotUsername env).
Proof. unfold getBotUsername. repeat emits_step. Qed.

Lemma ensureWallet_emits c userEmail :
  only_emits (calls [PregenerateUser]) (ensureWallet c userEmail).
Proof. unfold ensureWallet. repeat emits_step. Qed.

Lemma sendEvent_emits c eventType userEmail metadata :
  only_emits (calls [PregenerateUser; ManualEvent]) (sendEvent c eventType userEmail metadata).
Proof.
  unfold sendEvent.
  apply only_emits_bind; [| intros _].
  { apply only_emits_try_catch; [| intros ?; apply only_emits_ret].
    apply only_emits_bind; [| intros ?; apply only_emits_ret].
    emits_from ensureWallet_emits. }
  repeat emits_step.
Qed.

Lemma triggerReward_emits env eventType user chatId :
  only_emits (calls [GetMe; PregenerateUser; ManualEvent])
    (triggerReward env eventType user chatId).
Proof.
  unfold triggerReward.
  destruct (configured (BRAND_ID env)); [| apply only_emits_ret].
  apply only_emits_bind; [apply only_emits_lift | intros uid].
  apply only_emits_bind; [emits_from getBotUsername_emits | intros botUsername].
  apply only_emits_try_catch; [| intros ?; apply only_emits_ret].
  do 3 (apply only_emits_bind; [apply only_emits_lift | intros ?]).
  emits_from sendEvent_emits.
Qed.

Lemma checkin_reply_emits env chatId checkinEventId result :
  only_emits (calls [SendMessage]) (checkin_reply env chatId checkinEventId result).
Proof.
  unfold checkin_reply.
  repeat first [ apply sendMessage_emits | emits_step ].
Qed.

(** ** C6: the resolver *)

Lemma bind_lift {A B} (o : outcome A) (k : A -> M B) w s :
  bind (lift o) k w s = match o with
                        | Ok a => k a w s
                        | Throw e => (Throw e, s)
                        end.
Proof. unfold bind, lift. destruct o; reflexivity. Qed.

(** The loop changes nothing, and when it returns an identifier it has
    met an entry that matches. *)
Lemma find_config_run friendlyName items w s :
  exists o,
    find_config friendlyName items w s = (o, s)
    /\ match o with
       | Ok (Some _) =>
           exists config, In config items /\ entry_matches friendlyName config = true
       | _ => True
       end.
Proof.
  induction items as [|config rest IH].
  - exists (Ok None). split; [reflexivity | exact I].
  - cbn [find_config]. unfold prop. rewrite bind_lift.
    destruct config as [| |b|n|t|l|ps]; cbn [get_prop strict_eq_str];
      try (eexists; split; [reflexivity | exact I]).
    1-4: (rewrite bind_lift; cbn [strict_eq_str];
          destruct IH as (o & Hrun & Ho); exists o; split; [exact Hrun|];
          destruct o as [[v|]|e]; try exact I;
          destruct Ho as (c & Hin & Hc); exists c; split; [right; exact Hin | exact Hc]).
    destruct (strict_eq_str (own_prop "eventNameMapping" ps) friendlyName) eqn:Emap.
    + rewrite !bind_lift. eexists. split; [reflexivity|].
      exists (VObj ps). split; [left; reflexivity|].
      unfold entry_matches. cbn [get_prop]. now rewrite Emap.
    + rewrite bind_lift.
      destruct (strict_eq_str (own_prop "eventType" ps) friendlyName) eqn:Etype.
      * rewrite bind_lift. eexists. split; [reflexivity|].
        exists (VObj ps). split; [left; reflexivity|].
        unfold entry_matches. cbn [get_prop]. rewrite Etype. apply orb_true_r.
      * destruct IH as (o & Hrun & Ho). exists o. split; [exact Hrun|].
        destruct o as [[v|]|e]; try exact I.
        destruct Ho as (c & Hin & Hc). exists c. split; [right; exact Hin | exact Hc].
Qed.

(** The resolver always returns; what it returns is the name it was
    given, unless an entry of the listing matches the name. *)
Lemma resolveEventId_run env friendlyName w s :
  exists v s',
    resolveEventId env friendlyName w s = (Ok v, s')
    /\ (v = VStr friendlyName
        \/ exists brand config,
             configured (BRAND_ID env) = Some brand
             /\ In config (listing_entries (net w (trace s) (listing_request env brand)))
             /\ entry_matches friendlyName config = true).
Proof.
  unfold resolveEventId.
  destruct (String.prefix "custom_" friendlyName).
  { eexists _, _. split; [reflexivity | left; reflexivity]. }
  destruct (configured (BRAND_ID env)) as [brand|] eqn:Ebrand.
  2:{ eexists _, _. split; [reflexivity | left; reflexivity]. }
  unfold try_catch, bind at 1, js_fetch.
  fold (listing_request env brand).
  destruct (net w (trace s) (listing_request env brand)) as [message|r] eqn:Enet.
  { eexists _, _. split; [reflexivity | left; reflexivity]. }
  destruct (up_ok r) eqn:Eok; cbn [negb].
  2:{ eexists _, _. split; [reflexivity | left; reflexivity]. }
  unfold res_json.
  destruct (up_json r) as [data|] eqn:Ejson.
  2:{ eexists _, _. split; [reflexivity | left; reflexivity]. }
  unfold bind at 1, ret at 1. unfold prop. rewrite bind_lift.
  destruct (get_prop data "events") as [events|e1] eqn:Eevents.
  2:{ eexists _, _. split; [reflexivity | left; reflexivity]. }
  unfold iter_of. rewrite bind_lift.
  destruct (iterate (or_else events (VArr []))) as [items|e2] eqn:Eiter.
  2:{ eexists _, _. split; [reflexivity | left; reflexivity]. }
  unfold bind.
  destruct (find_config_run friendlyName items w
              (log_event (listing_request env brand) s)) as (o & Hrun & Ho).
  rewrite Hrun.
  destruct o as [[v|]|e3].
  - eexists _, _. split; [reflexivity|]. right. exists brand.
    destruct Ho as (config & Hin & Hmatch). exists config.
    split; [reflexivity|]. split; [|exact Hmatch].
    rewrite Enet. unfold listing_entries. rewrite Eok, Ejson, Eevents, Eiter. exact Hin.
  - eexists _, _. split; [reflexivity | left; reflexivity].
  - eexists _, _. split; [reflexivity | left; reflexivity].
Qed.

Lemma query_failed_no_entries answer : query_failed answer -> listing_entries answer = [].
Proof.
  destruct answer as [message|r]; simpl; [reflexivity|].
  intros [Hok|Hjson].
  - now rewrite Hok.
  - rewrite Hjson. now destruct (up_ok r).
Qed.

(** C6: the resolver is total and never throws; a name with the
    [custom_] prefix is returned unchanged without any request (and so
    is every name when no brand id is configured); and when the listing
    query fails (transport error, status that is not a success, body
    that is not JSON), or no entry of the listing has the name as its
    [eventNameMapping] or as its [eventType], the name is returned
    unchanged. *)
Theorem C6_resolver_total_with_fallback env friendlyName w s :
  (exists v s', resolveEventId env friendlyName w s = (Ok v, s'))
  /\ (String.prefix "custom_" friendlyName = true ->
      resolveEventId env friendlyName w s = (Ok (VStr friendlyName), s))
  /\ (configured (BRAND_ID env) = None ->
      resolveEventId env friendlyName w s = (Ok (VStr friendlyName), s))
  /\ (forall brand,
        configured (BRAND_ID env) = Some brand ->
        query_failed (net w (trace s) (listing_request env brand))
        \/ Forall (fun config => entry_matches friendlyName config = false)
             (listing_entries (net w (trace s) (listing_request env brand))) ->
        fst (resolveEventId env friendlyName w s) = Ok (VStr friendlyName)).
Proof.
  split; [|split; [|split]].
  - destruct (resolveEventId_run env friendlyName w s) as (v & s' & Hrun & _). eauto.
  - intros Hprefix. unfold resolveEventId. now rewrite Hprefix.
  - intros Hbrand. unfold resolveEventId. rewrite Hbrand.
    now destruct (String.prefix "custom_" friendlyName).
  - intros brand Hbrand Hno.
    destruct (resolveEventId_run env friendlyName w s) as (v & s' & Hrun & Hv).
    rewrite Hrun. cbn [fst].
    destruct Hv as [-> | (brand' & config & Hbrand' & Hin & Hmatch)]; [reflexivity|].
    rewrite Hbrand in Hbrand'. injection Hbrand' as <-.
    exfalso. destruct Hno as [Hfailed | Hnone].
    + rewrite (query_failed_no_entries _ Hfailed) in Hin. exact Hin.
    + rewrite Forall_forall in Hnone. specialize (Hnone config).
      rewrite Hnone in Hmatch; [discriminate|].
      apply list_elem_of_In. exact Hin.
Qed.

Lemma C6_resolver_total_with_fallback_witness :
  resolveEventId demo_env "custom_abc123" demo_world initial_state
  = (Ok (VStr "custom_abc123"), initial_state)
  /\ resolveEventId env_without_brand "daily_checkin" demo_world initial_state
     = (Ok (VStr "daily_checkin"), initial_state)
  /\ fst (resolveEventId demo_env "daily_checkin" offline initial_state)
     = Ok (VStr "daily_checkin")
  /\ fst (resolveEventId demo_env "weekly_quiz" demo_world initial_state)
     = Ok (VStr "weekly_quiz").
Proof.
  split; [|split; [|split]].
  - destruct (C6_resolver_total_with_fallback demo_env "custom_abc123" demo_world
                initial_state) as (_ & H & _).
    apply H. reflexivity.
  - destruct (C6_resolver_total_with_fallback env_without_brand "daily_checkin" demo_world
                initial_state) as (_ & _ & H & _).
    apply H. reflexivity.
  - destruct (C6_resolver_total_with_fallback demo_env "daily_checkin" offline
                initial_state) as (_ & _ & _ & H).
    apply (H "0xBrand"); [reflexivity|]. left. exact I.
  - destruct (C6_resolver_total_with_fallback demo_env "weekly_quiz" demo_world
                initial_state) as (_ & _ & _ & H).
    apply (H "0xBrand"); [reflexivity|]. right. repeat constructor.
Defined.

(** ** Reading and routing a message *)

Lemma handleMessage_reads env message chatId user text members w s :
  reads message chatId user text members ->
  handleMessage env message w s = route env chatId user text members w s.
Proof.
  intros [(chat & Hchat & Hid) Hfrom (text0 & Htext0 & Htext) (is_bot & Hbot & Hfalsy) Hmembers].
  unfold handleMessage.
  rewrite (bind_prop _ _ _ _ _ _ Hchat), (bind_prop _ _ _ _ _ _ Hid),
    (bind_prop _ _ _ _ _ _ Hfrom), (bind_prop _ _ _ _ _ _ Htext0),
    (bind_prop _ _ _ _ _ _ Hbot).
  rewrite Hfalsy, (bind_prop _ _ _ _ _ _ Hmembers), Htext. reflexivity.
Qed.

Lemma prefix_app p t : String.prefix p t = true -> exists rest, t = p +:+ rest.
Proof.
  revert t. induction p as [|a p IH]; intros t H.
  - exists t. reflexivity.
  - destruct t as [|b t]; [discriminate|]. cbn [String.prefix] in H.
    destruct (ascii_dec a b) as [->|]; [|discriminate].
    destruct (IH t H) as (rest & ->). exists rest. reflexivity.
Qed.

Lemma route_join env chatId user text members :
  truthy members = true ->
  route env chatId user text members = join_branch env chatId members.
Proof. intros H. unfold route. now rewrite H. Qed.

Lemma route_checkin env chatId user t members w s :
  truthy members = false ->
  String.prefix "/checkin" t = true ->
  route env chatId user (VStr t) members w s = checkin_branch env chatId user w s.
Proof.
  intros Hm Hp. unfold route. rewrite Hm. unfold starts_with. rewrite bind_ret, Hp.
  reflexivity.
Qed.

Lemma route_config k env chatId user t members w s :
  truthy members = false ->
  String.prefix (config_command k) t = true ->
  route env chatId user (VStr t) members w s = config_branch k env chatId user t w s.
Proof.
  intros Hm Hp. unfold route. rewrite Hm. unfold starts_with. rewrite !bind_ret.
  destruct (prefix_app _ _ Hp) as (rest & Ht).
  assert (H1 : String.prefix "/checkin" t = false) by (rewrite Ht; now destruct k).
  assert (H2 : String.prefix "/balance" t = false) by (rewrite Ht; now destruct k).
  assert (H3 : String.prefix "/ltz" t = false) by (rewrite Ht; now destruct k).
  rewrite H1, H2, H3. cbn [orb]. rewrite bind_ret.
  destruct k.
  - cbn [config_command] in Hp. rewrite Hp. reflexivity.
  - assert (H4 : String.prefix "/config_checkin" t = false) by (rewrite Ht; reflexivity).
    cbn [config_command] in Hp. rewrite H4, bind_ret, Hp. reflexivity.
Qed.

(** ** C9: a join message in a chat without a join identifier *)





(** ** C5: the reply to a failed check-in *)

Lemma checkin_branch_configured env chatId user id w s :
  TELEGRAM_BOT_KV env = true ->
  kv s !! ("CHECKIN_EVENT_ID:" +:+ to_string chatId) = Some id ->
  id <> "" ->
  checkin_branch env chatId user w s =
  bind (triggerReward env (VStr id) user chatId) (checkin_reply env chatId (VStr id)) w
    (log_event (KvGet ("CHECKIN_EVENT_ID:" +:+ to_string chatId)) s).
Proof.
  intros Hkv Hid Hne. unfold checkin_branch. rewrite Hkv.
  unfold bind at 1, kv_get. rewrite Hid. cbn [truthy].
  destruct (String.eqb id "") eqn:E; [apply String.eqb_eq in E; contradiction|].
  reflexivity.
Qed.

Lemma checkin_reply_failure env chatId checkinEventId result e w s :
  (exists success, get_prop result "success" = Ok success /\ truthy success = false) ->
  get_prop result "error" = Ok (VStr e) ->
  checkin_reply env chatId checkinEventId result w s =
  sendMessage env chatId (checkin_failure_text checkinEventId e) w s.
Proof.
  intros (success & Hsuccess & Hfalsy) Herror. unfold checkin_reply, checkin_failure_text.
  rewrite (bind_prop _ _ _ _ _ _ Hsuccess), Hfalsy, (bind_prop _ _ _ _ _ _ Herror).
  cbn [opt_includes]. rewrite bind_ret.
  destruct (includes "cooldown" e); [reflexivity|].
  rewrite bind_ret.
  destruct (includes "not found" e); cbn [orb]; rewrite bind_ret; [reflexivity|].
  destruct (includes "Invalid event" e); reflexivity.
Qed.




(** ** C4: the identifier stored by [/config_checkin] is the one used *)

Lemma calls_triggers_only R sites :
  ~ In ManualEvent sites -> ~ In EventConfig sites ->
  forall e, calls sites e -> triggers_only R e.
Proof.
  intros Hm Hc e. destruct e as [key|key val|site via url init]; simpl; [tauto | tauto |].
  destruct site; simpl; tauto.
Qed.

Ltac triggers_from lemma :=
  eapply only_emits_weaken; [| apply lemma];
  apply calls_triggers_only; simpl; intuition discriminate.

Lemma sendEvent_triggers_only c R userEmail metadata :
  only_emits (triggers_only R) (sendEvent c (VStr R) userEmail metadata).
Proof.
  unfold sendEvent.
  apply only_emits_bind; [| intros _].
  { apply only_emits_try_catch; [| intros ?; apply only_emits_ret].
    apply only_emits_bind; [| intros ?; apply only_emits_ret].
    triggers_from ensureWallet_emits. }
  destruct (configured (brandId c)); [| apply only_emits_throw].
  apply only_emits_bind; [apply only_emits_get_now | intros timestamp].
  apply only_emits_bind; [| intros first].
  - destruct (eventHandler c); [| apply only_emits_ret].
    apply only_emits_try_catch; [| intros ?; apply only_emits_ret].
    apply only_emits_bind; [apply only_emits_js_fetch; reflexivity | intros response].
    repeat emits_step.
  - destruct first; [apply only_emits_ret|].
    apply only_emits_try_catch; [| intros ?; apply only_emits_throw].
    apply only_emits_bind; [apply only_emits_js_fetch; reflexivity | intros response].
    repeat emits_step.
Qed.

Lemma triggerReward_triggers_only env R user chatId :
  only_emits (triggers_only R) (triggerReward env (VStr R) user chatId).
Proof.
  unfold triggerReward.
  destruct (configured (BRAND_ID env)); [| apply only_emits_ret].
  apply only_emits_bind; [apply only_emits_lift | intros uid].
  apply only_emits_bind; [triggers_from getBotUsername_emits | intros botUsername].
  apply only_emits_try_catch; [| intros ?; apply only_emits_ret].
  do 3 (apply only_emits_bind; [apply only_emits_lift | intros ?]).
  apply sendEvent_triggers_only.
Qed.



(** ** C2: what the admin commands store *)

(** C2, evaluated where it fails: in the text
    [/config_checkin  daily_checkin], with two spaces after the command,
    [split(" ")] yields three parts, the second one empty, so the length
    test passes with the empty string as the name; the resolver returns
    the empty name unchanged, and the empty string is written under the
    key of the chat and confirmed to the admin. *)
Theorem C2_empty_identifier_is_stored :
  split_space "/config_checkin  daily_checkin" = ["/config_checkin"; ""; "daily_checkin"]
  /\ fst (resolveEventId demo_env "" demo_world initial_state) = Ok (VStr "")
  /\ handleMessage demo_env (text_message 5 (person 7) "/config_checkin  daily_checkin")
       demo_world initial_state
     = (Ok tt,
        {| kv := <["CHECKIN_EVENT_ID:5" := ""]> ∅;
           cachedBotUsername := None;
           trace := [listing_request demo_env "0xBrand";
                     KvPut "CHECKIN_EVENT_ID:5" "";
                     message_sent "123:abc" (VNum 5)
                       "✅ Daily check-in event updated to: <code></code>"] |}).
Proof.
  split; [reflexivity|]. split; [vm_compute; reflexivity|]. reflexivity.
Qed.

(** ** C10: the worker without its KV binding *)

Lemma resolveEventId_emits env friendlyName :
  only_emits (calls [EventConfig]) (resolveEventId env friendlyName).
Proof.
  assert (Hloop : forall items, only_emits (calls [EventConfig])
                                  (find_config friendlyName items)).
  { intros items w s. destruct (find_config_run friendlyName items w s) as (o & Hrun & _).
    rewrite Hrun. apply extends_by_refl. }
  unfold resolveEventId. repeat first [ apply Hloop | emits_step ].
Qed.




(** The admin check answers [true] only in a worker with a bot token. *)
Lemma isAdmin_needs_token env chatId userId w s sa :
  isAdmin env chatId userId w s = (Ok true, sa) ->
  exists token, configured (TELEGRAM_BOT_TOKEN env) = Some token.
Proof.
  unfold isAdmin. destruct (configured (TELEGRAM_BOT_TOKEN env)) as [token|]; [eauto|].
  discriminate.
Qed.

(** ** What the helpers swallow *)

Section NeverThrows.
Context {A B : Type}.

Lemma never_throws_ret (a : A) : never_throws (ret a).
Proof. intros w s. exists a. reflexivity. Qed.

Lemma never_throws_bind (m : M A) (k : A -> M B) :
  never_throws m -> (forall a, never_throws (k a)) -> never_throws (bind m k).
Proof.
  intros Hm Hk w s. unfold bind. destruct (Hm w s) as (a & Ha).
  destruct (m w s) as [o s']. cbn [fst] in Ha. subst o. apply Hk.
Qed.

Lemma never_throws_try_catch (body : M A) (handler : string -> M A) :
  (forall e, never_throws (handler e)) -> never_throws (try_catch body handler).
Proof.
  intros Hh w s. unfold try_catch. destruct (body w s) as [[a|e] s'].
  - exists a. reflexivity.
  - apply Hh.
Qed.
End NeverThrows.

Lemma sendMessage_never_throws env chatId text : never_throws (sendMessage env chatId text).
Proof. intros w s. exists tt. now rewrite sendMessage_run. Qed.


Lemma resolveEventId_never_throws env friendlyName :
  never_throws (resolveEventId env friendlyName).
Proof.
  intros w s. destruct (resolveEventId_run env friendlyName w s) as (v & s' & Hrun & _).
  exists v. now rewrite Hrun.
Qed.

Lemma getBotUsername_never_throws env : never_throws (getBotUsername env).
Proof.
  unfold getBotUsername. apply never_throws_bind.
  { intros w s. eexists. reflexivity. }
  intros cached. destruct (configured cached) as [known|]; [apply never_throws_ret|].
  destruct (configured (TELEGRAM_BOT_TOKEN env)) as [token|]; [|apply never_throws_ret].
  apply never_throws_bind.
  - apply never_throws_try_catch. intros e. apply never_throws_ret.
  - intros [u|]; apply never_throws_ret.
Qed.

(** The reward trigger turns every failure of the rewards API into a
    result; it only throws when the user it is given is [null] or
    [undefined]. *)
Lemma triggerReward_never_throws env eventType user chatId uid :
  get_prop user "id" = Ok uid ->
  never_throws (triggerReward env eventType user chatId).
Proof.
  intros Hid. unfold triggerReward.
  destruct (configured (BRAND_ID env)) as [brand|]; [|apply never_throws_ret].
  apply never_throws_bind.
  { intros w s. exists uid. unfold prop, lift. now rewrite Hid. }
  intros uid'. apply never_throws_bind; [apply getBotUsername_never_throws|].
  intros botUsername. apply never_throws_try_catch. intros e. apply never_throws_ret.
Qed.

(** ** Checks of the string operations on the inputs of the specification *)

Example split_two_parts :
  split_space "/config_checkin daily_checkin" = ["/config_checkin"; "daily_checkin"].
Proof. reflexivity. Qed.

Example split_one_part : split_space "/config_checkin" = ["/config_checkin"].
Proof. reflexivity. Qed.

Example split_keeps_empty_fields : split_space "a  b" = ["a"; ""; "b"].
Proof. reflexivity. Qed.

Example includes_cooldown : includes "cooldown" "cooldown active" = true.
Proof. reflexivity. Qed.

Example to_string_of_array : to_string (VArr [VNum 1; VNull; VStr "a"]) = "1,,a".
Proof. reflexivity. Qed.

Example escapeHtml_entities : escapeHtml (VStr "a<b>&c") = "a&lt;b&gt;&amp;c".
Proof. reflexivity. Qed.

Example encodeURIComponent_brand : encodeURIComponent "0xAb/1 2" = "0xAb%2F1%202".
Proof. reflexivity. Qed.

(** Scenario 1 of the specification: [/balance] in a group chat. *)
Example balance_scenario :
  fetch demo_env
    (post (Some "s3cret") (Ok (VObj [("message", text_message (-100) (person 1) "/balance")])))
    demo_world initial_state
  = (Ok acknowledged,
     after [message_sent "123:abc" (VNum (-100)) msg_balance] initial_state).
Proof. reflexivity. Qed.

(** Scenario 3 of the specification: the friendly name is stored as the
    identifier from the listing. *)
Example config_scenario :
  kv (snd (handleMessage demo_env
             (text_message (-100) (person 1) "/config_checkin daily_checkin")
             demo_world initial_state)) !! "CHECKIN_EVENT_ID:-100"
  = Some "custom_abc123".
Proof. vm_compute. reflexivity. Qed.

(* ================================================================== *)
(** * Further properties of the worker *)
(* ================================================================== *)

(** ** The admin check in a group chat, and the admin gate *)




(** X2: a [/config_checkin] or [/config_join] from a sender for whom
    the admin check answers [false] is refused: the only reply is "Only
    admins can configure the bot", the resolver is not run (no request
    to the event-config listing) and nothing is written: the KV contents
    are unchanged, whatever the argument of the command. *)
Theorem X2_config_refused_for_non_admin
    k env message chatId user t members userId w s sa :
  reads message chatId user (VStr t) members ->
  truthy members = false ->
  String.prefix (config_command k) t = true ->
  get_prop user "id" = Ok userId ->
  isAdmin env chatId userId w s = (Ok false, sa) ->
  handleMessage env message w s = sendMessage env chatId msg_only_admins w sa
  /\ extends_by (calls [GetChatMember; SendMessage]) s
       (snd (handleMessage env message w s)).
Proof.
  intros Hreads Hmembers Hprefix Hid Hadmin.
  assert (Hrun : handleMessage env message w s
                 = sendMessage env chatId msg_only_admins w sa).
  { rewrite (handleMessage_reads _ _ _ _ _ _ _ _ Hreads),
      (route_config k _ _ _ _ _ _ _ Hmembers Hprefix).
    unfold config_branch.
    rewrite (bind_prop _ _ _ _ _ _ Hid), (bind_ok _ _ _ _ _ _ Hadmin). reflexivity. }
  split; [exact Hrun|]. rewrite Hrun.
  apply extends_by_trans with sa.
  - pose proof (isAdmin_emits env chatId userId w s) as H. rewrite Hadmin in H.
    eapply extends_by_weaken; [|exact H]. apply calls_incl. simpl. tauto.
  - eapply extends_by_weaken; [|apply (sendMessage_emits env chatId msg_only_admins w sa)].
    apply calls_incl. simpl. tauto.
Qed.

Lemma X2_config_refused_for_non_admin_witness :
  handleMessage demo_env (group_message "/config_join telegram_join") offline initial_state
  = (Ok tt,
     after [membership_request "123:abc" (VNum (-100)) (VNum 7);
            message_sent "123:abc" (VNum (-100)) msg_only_admins] initial_state).
Proof.
  destruct (X2_config_refused_for_non_admin Join demo_env
              (group_message "/config_join telegram_join") (VNum (-100)) (person 7)
              "/config_join telegram_join" VUndef (VNum 7) offline initial_state
              (log_event (membership_request "123:abc" (VNum (-100)) (VNum 7)) initial_state))
    as [Hrun _].
  - constructor.
    + exists (VObj [("id", VNum (-100))]). split; reflexivity.
    + reflexivity.
    + exists (VStr "/config_join telegram_join"). split; reflexivity.
    + exists (VBool false). split; reflexivity.
    + reflexivity.
  - reflexivity.
  - reflexivity.
  - reflexivity.
  - reflexivity.
  - rewrite Hrun. reflexivity.
Defined.

Lemma prefix_empty t : String.prefix "" t = true.
Proof. destruct t; reflexivity. Qed.

Lemma split_space_without_space t : includes " " t = false -> split_space t = [t].
Proof.
  induction t as [|c t IH]; [reflexivity|].
  cbn [includes split_space String.prefix]. intros H.
  apply orb_false_iff in H as [Hhead Htail].
  destruct (Ascii.eqb c " ") eqn:Ec.
  - apply Ascii.eqb_eq in Ec. subst c.
    destruct (ascii_dec " " " ") as [_|Hne]; [|now contradiction Hne].
    now rewrite prefix_empty in Hhead.
  - now rewrite (IH Htail).
Qed.

(** X3: an authorized [/config_checkin] or [/config_join] whose text
    contains no space has no argument: the handler replies with the
    usage text of that command and does nothing else.  The resolver is
    not run and the KV contents are unchanged. *)
Theorem X3_config_without_argument
    k env message chatId user t members userId w s sa :
  reads message chatId user (VStr t) members ->
  truthy members = false ->
  String.prefix (config_command k) t = true ->
  includes " " t = false ->
  get_prop user "id" = Ok userId ->
  isAdmin env chatId userId w s = (Ok true, sa) ->
  handleMessage env message w s = sendMessage env chatId (msg_usage k) w sa
  /\ extends_by (calls [GetChatMember; SendMessage]) s
       (snd (handleMessage env message w s)).
Proof.
  intros Hreads Hmembers Hprefix Hspace Hid Hadmin.
  assert (Hrun : handleMessage env message w s
                 = sendMessage env chatId (msg_usage k) w sa).
  { rewrite (handleMessage_reads _ _ _ _ _ _ _ _ Hreads),
      (route_config k _ _ _ _ _ _ _ Hmembers Hprefix).
    unfold config_branch.
    rewrite (bind_prop _ _ _ _ _ _ Hid), (bind_ok _ _ _ _ _ _ Hadmin).
    rewrite (split_space_without_space _ Hspace). reflexivity. }
  split; [exact Hrun|]. rewrite Hrun.
  apply extends_by_trans with sa.
  - pose proof (isAdmin_emits env chatId userId w s) as H. rewrite Hadmin in H.
    eapply extends_by_weaken; [|exact H]. apply calls_incl. simpl. tauto.
  - eapply extends_by_weaken; [|apply (sendMessage_emits env chatId (msg_usage k) w sa)].
    apply calls_incl. simpl. tauto.
Qed.

Lemma X3_config_without_argument_witness :
  handleMessage demo_env (text_message 5 (person 7) "/config_checkin")
    demo_world initial_state
  = (Ok tt, after [message_sent "123:abc" (VNum 5) (msg_usage Checkin)] initial_state).
Proof.
  destruct (X3_config_without_argument Checkin demo_env
              (text_message 5 (person 7) "/config_checkin") (VNum 5) (person 7)
              "/config_checkin" VUndef (VNum 7) demo_world initial_state initial_state)
    as [Hrun _].
  - constructor.
    + exists (VObj [("id", VNum 5)]). split; reflexivity.
    + reflexivity.
    + exists (VStr "/config_checkin"). split; reflexivity.
    + exists (VBool false). split; reflexivity.
    + reflexivity.
  - reflexivity.
  - reflexivity.
  - reflexivity.
  - reflexivity.
  - reflexivity.
  - rewrite Hrun. reflexivity.
Defined.

(** ** What a run of the handler may do to the KV namespace *)

Lemma only_emits_kv_get (P : event -> Prop) key : P (KvGet key) -> only_emits P (kv_get key).
Proof. intros H w s. unfold kv_get. cbn [snd]. apply extends_by_log. exact H. Qed.

Lemma only_emits_for_each (P : event -> Prop) l body :
  (forall x, only_emits P (body x)) -> only_emits P (for_each l body).
Proof.
  intros Hbody. induction l as [|x rest IH]; cbn [for_each].
  - apply only_emits_ret.
  - apply only_emits_bind; [apply Hbody | intros _; exact IH].
Qed.

Lemma calls_reads_only chatId sites : forall e, calls sites e -> reads_only chatId e.
Proof. intros [key|key val|site via url init]; simpl; tauto. Qed.

Ltac reads_from lemma :=
  eapply only_emits_weaken; [apply calls_reads_only | apply lemma].

Lemma join_branch_reads_only env chatId members :
  only_emits (reads_only chatId) (join_branch env chatId members).
Proof.
  unfold join_branch.
  apply only_emits_bind.
  { destruct (TELEGRAM_BOT_KV env); [|apply only_emits_ret].
    apply only_emits_kv_get. left. reflexivity. }
  intros joinEventId.
  destruct (negb (truthy joinEventId)); [reads_from sendMessage_emits|].
  apply only_emits_bind; [apply only_emits_lift | intros items].
  apply only_emits_for_each. intros member.
  apply only_emits_bind; [apply only_emits_lift | intros is_bot].
  destruct (truthy is_bot); [apply only_emits_ret|].
  apply only_emits_bind; [reads_from triggerReward_emits | intros result].
  apply only_emits_bind; [apply only_emits_lift | intros success].
  destruct (truthy success);
    repeat (apply only_emits_bind; [apply only_emits_lift | intros ?]);
    reads_from sendMessage_emits.
Qed.

Lemma checkin_branch_reads_only env chatId user :
  only_emits (reads_only chatId) (checkin_branch env chatId user).
Proof.
  unfold checkin_branch.
  apply only_emits_bind.
  { destruct (TELEGRAM_BOT_KV env); [|apply only_emits_ret].
    apply only_emits_kv_get. right. reflexivity. }
  intros checkinEventId.
  destruct (negb (truthy checkinEventId)); [reads_from sendMessage_emits|].
  apply only_emits_bind; [reads_from triggerReward_emits | intros result].
  reads_from checkin_reply_emits.
Qed.

(** Either the fields of the message are read, from a sender that is
    not a bot, or the handler stops where it started. *)
Lemma handleMessage_reads_or_stops env message w s :
  (exists chatId user text members, reads message chatId user text members)
  \/ snd (handleMessage env message w s) = s.
Proof.
  unfold handleMessage, prop. rewrite bind_lift.
  destruct (get_prop message "chat") as [chat|e] eqn:Echat; [|right; reflexivity].
  rewrite bind_lift.
  destruct (get_prop chat "id") as [chatId|e] eqn:Eid; [|right; reflexivity].
  rewrite bind_lift.
  destruct (get_prop message "from") as [user|e] eqn:Efrom; [|right; reflexivity].
  rewrite bind_lift.
  destruct (get_prop message "text") as [text0|e] eqn:Etext; [|right; reflexivity].
  rewrite bind_lift.
  destruct (get_prop user "is_bot") as [is_bot|e] eqn:Ebot; [|right; reflexivity].
  destruct (truthy is_bot) eqn:Etruthy; [right; reflexivity|].
  rewrite bind_lift.
  destruct (get_prop message "new_chat_members") as [members|e] eqn:Emembers;
    [|right; reflexivity].
  left. exists chatId, user, (or_else text0 (VStr "")), members.
  constructor; eauto.
Qed.

(** What the admin command does to the KV contents. *)
Lemma config_branch_kv k env chatId user t w s :
  kv (snd (config_branch k env chatId user t w s)) = kv s
  \/ exists userId sa command X rest R sr,
       get_prop user "id" = Ok userId
       /\ isAdmin env chatId userId w s = (Ok true, sa)
       /\ split_space t = command :: X :: rest
       /\ resolveEventId env X w sa = (Ok (VStr R), sr)
       /\ TELEGRAM_BOT_KV env = true
       /\ kv (snd (config_branch k env chatId user t w s))
          = <[config_key k chatId := R]> (kv s).
Proof.
  unfold config_branch, prop. rewrite bind_lift.
  destruct (get_prop user "id") as [userId|e] eqn:Eid; [|left; reflexivity].
  unfold bind at 1.
  pose proof (isAdmin_emits env chatId userId w s) as [Hkva _].
  destruct (isAdmin env chatId userId w s) as [[[|]|e] sa] eqn:Eadmin;
    cbn [snd negb] in *.
  2:{ left. rewrite sendMessage_run. cbn [snd].
      destruct (configured (TELEGRAM_BOT_TOKEN env)); exact Hkva. }
  2:{ left. exact Hkva. }
  destruct (split_space t) as [|command [|X rest]] eqn:Esplit.
  1-2: (left; cbv beta iota; rewrite sendMessage_run; cbn [snd];
        destruct (configured (TELEGRAM_BOT_TOKEN env)); exact Hkva).
  unfold bind at 1.
  pose proof (resolveEventId_emits env X w sa) as [Hkvr _].
  destruct (resolveEventId_run env X w sa) as (resolved & sr & Hresolve & _).
  rewrite Hresolve in *. cbn [snd] in Hkvr.
  destruct (TELEGRAM_BOT_KV env) eqn:Ekv.
  2:{ left. rewrite sendMessage_run. cbn [snd].
      destruct (configured (TELEGRAM_BOT_TOKEN env)); cbn [log_event kv]; congruence. }
  destruct resolved as [| |b|n|R|l|ps];
    try (left; cbn [kv_put bind throw snd]; unfold bind, throw; cbn [snd]; congruence).
  right. exists userId, sa, command, X, rest, R, sr.
  repeat (split; [reflexivity || assumption|]).
  rewrite (bind_ok _ _ _ _ _ _ Eadmin). cbn [negb].
  rewrite (bind_ok _ _ _ _ _ _ Hresolve).
  unfold bind at 1. cbn [kv_put].
  destruct (negb (strict_eq_str (VStr R) X)); rewrite sendMessage_run; cbn [snd];
    destruct (configured (TELEGRAM_BOT_TOKEN env)); cbn [log_event kv]; congruence.
Qed.

Lemma sendMessage_kv env chatId text w s : kv (snd (sendMessage env chatId text w s)) = kv s.
Proof. apply (sendMessage_emits env chatId text w s). Qed.

Lemma route_kv env chatId user text members w s :
  kv (snd (route env chatId user text members w s)) = kv s
  \/ exists k t,
       text = VStr t /\ truthy members = false
       /\ String.prefix (config_command k) t = true
       /\ route env chatId user text members w s = config_branch k env chatId user t w s.
Proof.
  destruct (truthy members) eqn:Emembers.
  { left. rewrite (route_join _ _ _ _ _ Emembers).
    apply (join_branch_reads_only env chatId members w s). }
  destruct text as [| |b|n|t|l|ps];
    try (left; unfold route; rewrite Emembers; reflexivity).
  destruct (String.prefix "/checkin" t) eqn:E1.
  { left. rewrite (route_checkin _ _ _ _ _ _ _ Emembers E1).
    apply (checkin_branch_reads_only env chatId user w s). }
  destruct (String.prefix "/config_checkin" t) eqn:E2.
  { right. exists Checkin, t. repeat split; try assumption.
    apply route_config; assumption. }
  destruct (String.prefix "/config_join" t) eqn:E3.
  { right. exists Join, t. repeat split; try assumption.
    apply route_config; assumption. }
  left. unfold route. rewrite Emembers. unfold starts_with.
  rewrite bind_ret, E1, !bind_ret.
  destruct (String.prefix "/balance" t || String.prefix "/ltz" t);
    [apply sendMessage_kv|].
  rewrite bind_ret, E2, bind_ret, E3, bind_ret.
  destruct (String.prefix "/start" t); [apply sendMessage_kv | reflexivity].
Qed.

(** X4: one run of the message handler either leaves the contents of
    the KV namespace as they were, or it is the run of a
    [/config_checkin] or [/config_join] that passed the admin check and
    has a second field [X]; then the one change is that the key of that
    command for the chat of the message holds the string that the
    resolver returned for [X].  No other message, sender or failure
    makes the handler write. *)
Theorem X4_only_admin_commands_write env message w s :
  kv (snd (handleMessage env message w s)) = kv s
  \/ exists chatId user t members k userId sa command X rest R sr,
       reads message chatId user (VStr t) members
       /\ truthy members = false
       /\ String.prefix (config_command k) t = true
       /\ get_prop user "id" = Ok userId
       /\ isAdmin env chatId userId w s = (Ok true, sa)
       /\ split_space t = command :: X :: rest
       /\ resolveEventId env X w sa = (Ok (VStr R), sr)
       /\ kv (snd (handleMessage env message w s))
          = <[config_key k chatId := R]> (kv s).
Proof.
  destruct (handleMessage_reads_or_stops env message w s)
    as [(chatId & user & text & members & Hreads) | Hstop];
    [|left; now rewrite Hstop].
  rewrite (handleMessage_reads _ _ _ _ _ _ _ _ Hreads).
  destruct (route_kv env chatId user text members w s)
    as [Hkv | (k & t & -> & Hmembers & Hprefix & Hroute)]; [left; exact Hkv|].
  rewrite Hroute.
  destruct (config_branch_kv k env chatId user t w s)
    as [Hkv | (userId & sa & command & X & rest & R & sr & Hid & Hadmin & Hsplit
               & Hresolve & _ & Hkv)]; [left; exact Hkv|].
  right. exists chatId, user, t, members, k, userId, sa, command, X, rest, R, sr.
  repeat (split; [assumption|]). exact Hkv.
Qed.

(** ** Messages that the handler ignores *)

(** X5: the handler does nothing at all (no request, no access to the
    KV namespace, no exception) for a message whose sender is a bot,
    whatever else the message carries; and for a message of a sender
    that is not a bot that has no new members and whose text begins with
    none of [/checkin], [/balance], [/ltz], [/config_checkin],
    [/config_join], [/start]. *)
Theorem X5_ignored_messages env message w s :
  (forall chat chatId user text0 is_bot,
     get_prop message "chat" = Ok chat ->
     get_prop chat "id" = Ok chatId ->
     get_prop message "from" = Ok user ->
     get_prop message "text" = Ok text0 ->
     get_prop user "is_bot" = Ok is_bot ->
     truthy is_bot = true ->
     handleMessage env message w s = (Ok tt, s))
  /\ (forall chatId user t members,
        reads message chatId user (VStr t) members ->
        truthy members = false ->
        forallb (fun command => negb (String.prefix command t))
          ["/checkin"; "/balance"; "/ltz"; "/config_checkin"; "/config_join"; "/start"]
        = true ->
        handleMessage env message w s = (Ok tt, s)).
Proof.
  split.
  - intros chat chatId user text0 is_bot Hchat Hid Hfrom Htext Hbot Htruthy.
    unfold handleMessage.
    rewrite (bind_prop _ _ _ _ _ _ Hchat), (bind_prop _ _ _ _ _ _ Hid),
      (bind_prop _ _ _ _ _ _ Hfrom), (bind_prop _ _ _ _ _ _ Htext),
      (bind_prop _ _ _ _ _ _ Hbot), Htruthy. reflexivity.
  - intros chatId user t members Hreads Hmembers Hnone.
    cbn [forallb] in Hnone. rewrite !andb_true_iff, !negb_true_iff in Hnone.
    destruct Hnone as (H1 & H2 & H3 & H4 & H5 & H6 & _).
    rewrite (handleMessage_reads _ _ _ _ _ _ _ _ Hreads).
    unfold route. rewrite Hmembers. unfold starts_with.
    rewrite bind_ret, H1, !bind_ret, H2, H3. cbn [orb].
    rewrite bind_ret, H4, bind_ret, H5, bind_ret, H6. reflexivity.
Qed.

Lemma X5_ignored_messages_witness :
  handleMessage demo_env
    (VObj [("chat", VObj [("id", VNum (-100))]);
           ("from", VObj [("id", VNum 8); ("is_bot", VBool true)]);
           ("text", VStr "/config_join telegram_join");
           ("new_chat_members", VArr [person 9])])
    demo_world initial_state = (Ok tt, initial_state)
  /\ handleMessage demo_env (group_message "hello /checkin") demo_world initial_state
     = (Ok tt, initial_state).
Proof.
  split.
  - eapply (proj1 (X5_ignored_messages demo_env _ demo_world initial_state));
      reflexivity.
  - eapply (proj2 (X5_ignored_messages demo_env _ demo_world initial_state))
      with (chatId := VNum (-100)) (t := "hello /checkin") (members := VUndef).
    + constructor.
      * exists (VObj [("id", VNum (-100))]). split; reflexivity.
      * reflexivity.
      * exists (VStr "hello /checkin"). split; reflexivity.
      * exists (VBool false). split; reflexivity.
      * reflexivity.
    + reflexivity.
    + reflexivity.
Defined.

(** ** The cached bot identity *)

(** X6: the bot's handle is fetched at most once.  After a call of
    [getBotUsername] that returned a handle [u], a call in any later
    state that still holds that cache entry returns [u] again, whatever
    the world, without any request and without changing the state; a
    call that returned [null] has left the cache as it was, so the next
    call tries again. *)
Theorem X6_bot_username_is_cached env w s :
  (forall u s1,
     getBotUsername env w s = (Ok (VStr u), s1) ->
     forall w' s2,
       cachedBotUsername s2 = cachedBotUsername s1 ->
       getBotUsername env w' s2 = (Ok (VStr u), s2))
  /\ (forall s1,
        getBotUsername env w s = (Ok VNull, s1) ->
        cachedBotUsername s1 = cachedBotUsername s).
Proof.
  assert (Hhit : forall u w' s2, configured (cachedBotUsername s2) = Some u ->
                                 getBotUsername env w' s2 = (Ok (VStr u), s2)).
  { intros u w' s2 H. unfold getBotUsername, bind at 1, get_cached. now rewrite H. }
  assert (Hrun : exists v s1,
             getBotUsername env w s = (Ok v, s1)
             /\ ((v = VNull /\ cachedBotUsername s1 = cachedBotUsername s)
                 \/ exists u, v = VStr u /\ configured (cachedBotUsername s1) = Some u)).
  { unfold getBotUsername, bind at 1, get_cached.
    destruct (configured (cachedBotUsername s)) as [known|] eqn:Ecached.
    { eexists _, _. split; [reflexivity|]. right. eauto. }
    destruct (configured (TELEGRAM_BOT_TOKEN env)) as [token|].
    2:{ eexists _, _. split; [reflexivity|]. left. split; reflexivity. }
    unfold bind at 1, try_catch, bind at 1, js_fetch.
    destruct (net w (trace s) _) as [m|r].
    { eexists _, _. split; [reflexivity|]. left. split; reflexivity. }
    unfold res_json. destruct (up_json r) as [data|].
    2:{ eexists _, _. split; [reflexivity|]. left. split; reflexivity. }
    unfold bind at 1, ret at 1. unfold prop. rewrite bind_lift.
    destruct (get_prop data "ok") as [ok|e].
    2:{ eexists _, _. split; [reflexivity|]. left. split; reflexivity. }
    destruct (truthy ok).
    2:{ eexists _, _. split; [reflexivity|]. left. split; reflexivity. }
    rewrite bind_lift. destruct (get_prop data "result") as [result|e].
    2:{ eexists _, _. split; [reflexivity|]. left. split; reflexivity. }
    rewrite bind_lift. destruct (get_prop result "username") as [username|e].
    2:{ eexists _, _. split; [reflexivity|]. left. split; reflexivity. }
    destruct (truthy username).
    2:{ eexists _, _. split; [reflexivity|]. left. split; reflexivity. }
    eexists _, _. split; [reflexivity|]. right. eexists. split; reflexivity. }
  destruct Hrun as (v & s1' & Hrun & Hv). rewrite Hrun. split.
  - intros u s1 H w' s2 Hsame. injection H as -> <-.
    destruct Hv as [[Hnull _] | (u' & Hu & Hcached)]; [discriminate Hnull|].
    injection Hu as <-. apply Hhit. now rewrite Hsame.
  - intros s1 H. injection H as -> <-.
    destruct Hv as [[_ Hsame] | (u' & Hu & _)]; [exact Hsame | discriminate Hu].
Qed.

Lemma X6_bot_username_is_cached_witness :
  exists s1,
    getBotUsername demo_env demo_world initial_state = (Ok (VStr "@loyalty_bot"), s1)
    /\ getBotUsername demo_env offline s1 = (Ok (VStr "@loyalty_bot"), s1).
Proof.
  eexists. split; [reflexivity|].
  eapply (proj1 (X6_bot_username_is_cached demo_env demo_world initial_state));
    reflexivity.
Defined.

(** ** The rewards client *)

(** X7: wallet pregeneration is best effort.  [ensureWallet] never
    throws and leaves the KV contents and the cache alone.  Without the
    pregeneration binding it makes one request, to the public endpoint;
    with the binding it asks the binding first, and stops there exactly
    when the binding answers with a 2xx status and a JSON body other
    than [null], whose [wallet_address] it returns; after any other
    answer of the binding it makes the public request as well. *)
Theorem X7_ensureWallet_best_effort c userEmail w s :
  exists wallet events,
    ensureWallet c userEmail w s = (Ok wallet, after events s)
    /\ ((pregeneration c = false /\ events = [wallet_request Http c userEmail])
        \/ (pregeneration c = true
            /\ events = [wallet_request PregenerationBinding c userEmail]
            /\ exists data,
                 accepted (net w (trace s) (wallet_request PregenerationBinding c userEmail))
                 = Some data
                 /\ get_prop data "wallet_address" = Ok wallet)
        \/ (pregeneration c = true
            /\ events = [wallet_request PregenerationBinding c userEmail;
                         wallet_request Http c userEmail]
            /\ forall data,
                 accepted (net w (trace s) (wallet_request PregenerationBinding c userEmail))
                 = Some data ->
                 exists e, get_prop data "wallet_address" = Throw e)).
Proof.
  unfold ensureWallet. fold (wallet_payload c userEmail).
  match goal with
  | |- context [try_catch ?b (fun _ => ret VNull)] =>
      set (public := try_catch b (fun _ => ret VNull))
  end.
  assert (Hpublic : forall s0, exists wallet,
             public w s0 = (Ok wallet, log_event (wallet_request Http c userEmail) s0)).
  { intros s0. subst public. unfold try_catch at 1, bind at 1, js_fetch.
    fold (wallet_request Http c userEmail).
    destruct (net w (trace s0) (wallet_request Http c userEmail)) as [m|r];
      [eexists; reflexivity|].
    unfold res_json, try_catch, bind at 1.
    destruct (up_json r) as [data|]; [|eexists; reflexivity].
    unfold ret at 1. destruct (up_ok r); cbn [negb]; unfold prop.
    - unfold lift. destruct (get_prop data "wallet_address"); eexists; reflexivity.
    - rewrite bind_lift. destruct (get_prop data "error"); eexists; reflexivity. }
  clearbody public.
  destruct (pregeneration c) eqn:Epg.
  2:{ rewrite bind_ret. destruct (Hpublic s) as (wallet & Hrun).
      exists wallet, [wallet_request Http c userEmail]. split; [exact Hrun|].
      left. split; reflexivity. }
  match goal with
  | |- context [try_catch ?b (fun _ => ret None)] =>
      set (attempt := try_catch b (fun _ => ret None))
  end.
  assert (Hattempt : exists first,
             attempt w s
             = (Ok first, log_event (wallet_request PregenerationBinding c userEmail) s)
             /\ match first with
                | Some wallet =>
                    exists data,
                      accepted (net w (trace s)
                                  (wallet_request PregenerationBinding c userEmail))
                      = Some data
                      /\ get_prop data "wallet_address" = Ok wallet
                | None =>
                    forall data,
                      accepted (net w (trace s)
                                  (wallet_request PregenerationBinding c userEmail))
                      = Some data ->
                      exists e, get_prop data "wallet_address" = Throw e
                end).
  { subst attempt. unfold try_catch at 1, bind at 1, js_fetch, accepted.
    fold (wallet_request PregenerationBinding c userEmail).
    destruct (net w (trace s) (wallet_request PregenerationBinding c userEmail)) as [m|r].
    { exists None. split; [reflexivity | discriminate]. }
    unfold res_json, try_catch, bind at 1.
    destruct (up_json r) as [data|].
    2:{ exists None. split; [reflexivity|]. destruct (up_ok r); discriminate. }
    unfold ret at 1. destruct (up_ok r); cbn [negb]; unfold prop; rewrite bind_lift.
    - destruct (get_prop data "wallet_address") as [wallet|e] eqn:Ewallet.
      + exists (Some wallet). split; [reflexivity|]. exists data. split; [reflexivity|assumption].
      + exists None. split; [reflexivity|]. intros data' H. injection H as <-. eauto.
    - exists None. split; [destruct (get_prop data "error"); reflexivity | discriminate]. }
  clearbody attempt.
  destruct Hattempt as (first & Hrun & Hfirst).
  rewrite (bind_ok _ _ _ _ _ _ Hrun).
  destruct first as [wallet|].
  - exists wallet, [wallet_request PregenerationBinding c userEmail].
    split; [reflexivity|]. right. left. split; [reflexivity|]. split; [reflexivity|].
    exact Hfirst.
  - destruct (Hpublic (log_event (wallet_request PregenerationBinding c userEmail) s))
      as (wallet & Hrun').
    exists wallet, [wallet_request PregenerationBinding c userEmail;
                    wallet_request Http c userEmail].
    split.
    + rewrite Hrun'. unfold after, log_event. cbn [kv cachedBotUsername trace].
      now rewrite <- app_assoc.
    + right. right. split; [reflexivity|]. split; [reflexivity|]. exact Hfirst.
Qed.

Lemma swallowed_run {A} (m : M A) w s :
  try_catch (_ <- m ;; ret tt) (fun _ => ret tt) w s = (Ok tt, snd (m w s)).
Proof. unfold try_catch, bind. destruct (m w s) as [[a|e] s']; reflexivity. Qed.

(** One run of [sendEvent], in terms of the answers it gets. *)
Lemma sendEvent_run c eventType userEmail metadata w s brand :
  configured (brandId c) = Some brand ->
  sendEvent c eventType userEmail metadata w s =
  let s1 := snd (ensureWallet c userEmail w s) in
  let bound := reward_request EventHandlerBinding c eventType userEmail metadata (now w) in
  let public := reward_request Http c eventType userEmail metadata (now w) in
  match (if eventHandler c then accepted (net w (trace s1) bound) else None) with
  | Some data => (Ok data, log_event bound s1)
  | None =>
      let s2 := if eventHandler c then log_event bound s1 else s1 in
      (public_verdict (net w (trace s2) public), log_event public s2)
  end.
Proof.
  intros Hbrand. unfold sendEvent.
  rewrite (bind_ok _ _ _ _ _ _ (swallowed_run (ensureWallet c userEmail) w s)).
  rewrite Hbrand. unfold bind at 1, get_now.
  fold (reward_payload c eventType userEmail metadata (now w)).
  match goal with
  | |- context [try_catch ?b (fun message => throw message)] =>
      set (http := try_catch b (fun message => throw message))
  end.
  assert (Hhttp : forall s2,
             http w s2
             = (public_verdict
                  (net w (trace s2)
                     (reward_request Http c eventType userEmail metadata (now w))),
                log_event (reward_request Http c eventType userEmail metadata (now w)) s2)).
  { intros s2. subst http. unfold try_catch at 1, bind at 1, js_fetch, public_verdict.
    fold (reward_request Http c eventType userEmail metadata (now w)).
    destruct (net w (trace s2) _) as [m|r]; [reflexivity|].
    unfold res_json, try_catch, bind at 1.
    destruct (up_json r) as [data|]; [|reflexivity].
    unfold ret at 1. destruct (up_ok r); cbn [negb]; [reflexivity|].
    unfold prop. rewrite bind_lift. destruct (get_prop data "error"); reflexivity. }
  clearbody http. cbv zeta.
  set (s1 := snd (ensureWallet c userEmail w s)).
  destruct (eventHandler c).
  2:{ rewrite bind_ret. apply Hhttp. }
  match goal with
  | |- context [try_catch ?b (fun _ => ret None)] =>
      set (attempt := try_catch b (fun _ => ret None))
  end.
  assert (Hattempt :
            attempt w s1
            = (Ok (accepted
                     (net w (trace s1)
                        (reward_request EventHandlerBinding c eventType userEmail
                           metadata (now w)))),
               log_event (reward_request EventHandlerBinding c eventType userEmail
                            metadata (now w)) s1)).
  { subst attempt. unfold try_catch at 1, bind at 1, js_fetch, accepted.
    fold (reward_request EventHandlerBinding c eventType userEmail metadata (now w)).
    destruct (net w (trace s1) _) as [m|r]; [reflexivity|].
    unfold res_json, try_catch, bind at 1.
    destruct (up_json r) as [data|]; [|now destruct (up_ok r)].
    unfold ret at 1. destruct (up_ok r); cbn [negb]; [reflexivity|].
    unfold prop. rewrite bind_lift. destruct (get_prop data "error"); [|reflexivity].
    rewrite bind_lift. now destruct (get_prop data "errors"). }
  clearbody attempt.
  rewrite (bind_ok _ _ _ _ _ _ Hattempt).
  destruct (accepted _); [reflexivity | apply Hhttp].
Qed.

(** X8: the reward request goes to the event-handler binding first
    when the binding is configured.  If the binding answers with a 2xx
    status and a JSON body, that body is the result and the public
    endpoint is not contacted.  In every other case (no binding; or the
    binding rejects, answers another status, or no JSON) exactly one
    request to the public endpoint follows, and it alone decides: its
    2xx JSON body is the result; anything else is raised as an error,
    whose message, for an answer with a status outside 200-299 and a
    JSON body with a non-empty [error] string, is that string.  What the
    failed binding answered is dropped. *)
Theorem X8_sendEvent_binding_then_public c eventType userEmail metadata w s brand :
  configured (brandId c) = Some brand ->
  let s1 := snd (ensureWallet c userEmail w s) in
  let bound := reward_request EventHandlerBinding c eventType userEmail metadata (now w) in
  let public := reward_request Http c eventType userEmail metadata (now w) in
  (forall data,
     eventHandler c = true ->
     accepted (net w (trace s1) bound) = Some data ->
     sendEvent c eventType userEmail metadata w s = (Ok data, log_event bound s1))
  /\ (forall s2,
        (eventHandler c = false /\ s2 = s1)
        \/ (eventHandler c = true
            /\ accepted (net w (trace s1) bound) = None
            /\ s2 = log_event bound s1) ->
        exists o,
          sendEvent c eventType userEmail metadata w s = (o, log_event public s2)
          /\ match accepted (net w (trace s2) public) with
             | Some data => o = Ok data
             | None => exists m, o = Throw m
             end
          /\ forall r data e,
               net w (trace s2) public = Resolves r ->
               up_ok r = false ->
               up_json r = Some data ->
               get_prop data "error" = Ok (VStr e) ->
               e <> "" ->
               o = Throw e).
Proof.
  intros Hbrand s1 bound public.
  pose proof (sendEvent_run c eventType userEmail metadata w s brand Hbrand) as Hrun.
  cbv zeta in Hrun. fold s1 bound public in Hrun.
  split.
  - intros data Hbinding Haccepted. rewrite Hrun, Hbinding, Haccepted. reflexivity.
  - intros s2 Hcase.
    assert (Hpublic : sendEvent c eventType userEmail metadata w s
                      = (public_verdict (net w (trace s2) public), log_event public s2)).
    { rewrite Hrun.
      destruct Hcase as [[Hnone ->] | (Hbinding & Hrefused & ->)].
      - now rewrite Hnone.
      - now rewrite Hbinding, Hrefused. }
    exists (public_verdict (net w (trace s2) public)). split; [exact Hpublic|].
    unfold public_verdict, accepted. split.
    + destruct (net w (trace s2) public) as [m|r]; [eauto|].
      destruct (up_json r) as [data|]; [|destruct (up_ok r); eauto].
      destruct (up_ok r); [reflexivity|].
      destruct (get_prop data "error"); eauto.
    + intros r data e Hnet Hok Hjson Herror Hne.
      rewrite Hnet, Hjson, Hok, Herror. unfold or_else. cbn [truthy to_string].
      destruct (String.eqb e "") eqn:E; [apply String.eqb_eq in E; contradiction|].
      reflexivity.
Qed.

Lemma X8_sendEvent_binding_then_public_witness :
  fst (sendEvent bound_client (VStr "custom_abc123") "telegram_7@loyalteez.app" []
         bindings_only initial_state)
  = Ok (VObj [("success", VBool true); ("ltzDistributed", VNum 10)])
  /\ fst (sendEvent bound_client (VStr "custom_abc123") "telegram_7@loyalteez.app" []
            bindings_down initial_state)
     = Throw "Invalid event type".
Proof.
  split.
  - destruct (X8_sendEvent_binding_then_public bound_client (VStr "custom_abc123")
                "telegram_7@loyalteez.app" [] bindings_only initial_state "0xBrand"
                eq_refl) as [H _].
    rewrite (H (VObj [("success", VBool true); ("ltzDistributed", VNum 10)]));
      reflexivity.
  - destruct (X8_sendEvent_binding_then_public bound_client (VStr "custom_abc123")
                "telegram_7@loyalteez.app" [] bindings_down initial_state "0xBrand"
                eq_refl) as [_ H].
    destruct (H _ (or_intror (conj eq_refl (conj eq_refl eq_refl))))
      as (o & Hrun & _ & Herror).
    rewrite Hrun. cbn [fst].
    eapply Herror; [reflexivity | reflexivity | reflexivity | reflexivity | discriminate].
Defined.





(** ** Check-in and join with a stored identifier *)

(** X10: a [/checkin] in a chat with a stored identifier, when no brand
    id is configured, reaches no rewards endpoint: after the read of the
    key the one thing that happens is the reply "Check-in failed: Bot
    configuration error". *)
Theorem X10_checkin_without_brand env message chatId user t members w s id :
  reads message chatId user (VStr t) members ->
  truthy members = false ->
  String.prefix "/checkin" t = true ->
  TELEGRAM_BOT_KV env = true ->
  kv s !! ("CHECKIN_EVENT_ID:" +:+ to_string chatId) = Some id ->
  id <> "" ->
  configured (BRAND_ID env) = None ->
  handleMessage env message w s =
  sendMessage env chatId "❌ Check-in failed: Bot configuration error" w
    (log_event (KvGet ("CHECKIN_EVENT_ID:" +:+ to_string chatId)) s).
Proof.
  intros Hreads Hmembers Hprefix Hkv Hid Hne Hbrand.
  rewrite (handleMessage_reads _ _ _ _ _ _ _ _ Hreads),
    (route_checkin _ _ _ _ _ _ _ Hmembers Hprefix),
    (checkin_branch_configured _ _ _ _ _ _ Hkv Hid Hne).
  unfold bind at 1, triggerReward. rewrite Hbrand. unfold ret at 1.
  rewrite (checkin_reply_failure env chatId (VStr id) _ "Bot configuration error");
    [reflexivity | exists (VBool false); split; reflexivity | reflexivity].
Qed.

Lemma X10_checkin_without_brand_witness :
  handleMessage env_without_brand (group_message "/checkin") demo_world checkin_configured
  = (Ok tt,
     after [KvGet "CHECKIN_EVENT_ID:-100";
            message_sent "123:abc" (VNum (-100))
              "❌ Check-in failed: Bot configuration error"] checkin_configured).
Proof.
  rewrite (X10_checkin_without_brand env_without_brand (group_message "/checkin")
             (VNum (-100)) (person 7) "/checkin" VUndef demo_world checkin_configured
             "custom_abc123").
  - reflexivity.
  - constructor.
    + exists (VObj [("id", VNum (-100))]). split; reflexivity.
    + reflexivity.
    + exists (VStr "/checkin"). split; reflexivity.
    + exists (VBool false). split; reflexivity.
    + reflexivity.
  - reflexivity.
  - reflexivity.
  - reflexivity.
  - vm_compute. reflexivity.
  - discriminate.
  - reflexivity.
Defined.



Lemma join_branch_configured env chatId members R w s :
  TELEGRAM_BOT_KV env = true ->
  kv s !! ("JOIN_EVENT_ID:" +:+ to_string chatId) = Some R ->
  R <> "" ->
  join_branch env chatId members w s =
  (items <- iter_of members ;;
   for_each items (fun member =>
     is_bot <- prop member "is_bot" ;;
     if truthy is_bot then ret tt
     else
       result <- triggerReward env (VStr R) member chatId ;;
       success <- prop result "success" ;;
       if truthy success then
         first_name <- prop member "first_name" ;;
         ltz <- prop result "ltzDistributed" ;;
         sendMessage env chatId
           ("Welcome " +:+ to_string first_name +:+ "! You've earned "
            +:+ to_string (or_else ltz (VStr "LTZ")) +:+ " tokens for joining.")
       else
         first_name <- prop member "first_name" ;;
         sendMessage env chatId
           ("Welcome " +:+ to_string first_name +:+ "! (Reward processing...)")))
    w (log_event (KvGet ("JOIN_EVENT_ID:" +:+ to_string chatId)) s).
Proof.
  intros Hkv Hid Hne. unfold join_branch. rewrite Hkv.
  unfold bind at 1, kv_get. rewrite Hid. cbn [truthy].
  destruct (String.eqb R "") eqn:E; [apply String.eqb_eq in E; contradiction|].
  reflexivity.
Qed.

(** X12: the join reward uses the stored identifier.  For a message
    with new members in a chat whose join key holds the non-empty string
    [R], the handler reads that key and then only triggers rewards for
    [R] and sends messages: every request to the manual-event endpoint
    carries [R] as its event type, no request goes to the event-config
    listing (the resolver does not run), and the KV contents are
    unchanged. *)
Theorem X12_join_uses_stored_identifier env message chatId user text members R w s :
  reads message chatId user text members ->
  truthy members = true ->
  TELEGRAM_BOT_KV env = true ->
  kv s !! ("JOIN_EVENT_ID:" +:+ to_string chatId) = Some R ->
  R <> "" ->
  exists events,
    trace (snd (handleMessage env message w s))
    = trace s ++ KvGet ("JOIN_EVENT_ID:" +:+ to_string chatId) :: events
    /\ Forall (triggers_only R) events
    /\ kv (snd (handleMessage env message w s)) = kv s.
Proof.
  intros Hreads Hmembers Hkv Hid Hne.
  rewrite (handleMessage_reads _ _ _ _ _ _ _ _ Hreads), (route_join _ _ _ _ _ Hmembers),
    (join_branch_configured _ _ _ _ _ _ Hkv Hid Hne).
  match goal with
  | |- context [snd (?m w ?s0)] =>
      assert (Hemits : only_emits (triggers_only R) m); [|destruct (Hemits w s0)
        as [Hsame (events & Htrace & Hall)]]
  end.
  { apply only_emits_bind; [apply only_emits_lift | intros items].
    apply only_emits_for_each. intros member.
    apply only_emits_bind; [apply only_emits_lift | intros is_bot].
    destruct (truthy is_bot); [apply only_emits_ret|].
    apply only_emits_bind; [apply triggerReward_triggers_only | intros result].
    apply only_emits_bind; [apply only_emits_lift | intros success].
    destruct (truthy success);
      repeat (apply only_emits_bind; [apply only_emits_lift | intros ?]);
      triggers_from sendMessage_emits. }
  exists events. split; [|split; [exact Hall | exact Hsame]].
  rewrite Htrace. cbn [log_event trace]. now rewrite <- app_assoc.
Qed.

Lemma X12_join_uses_stored_identifier_witness :
  exists events,
    trace (snd (handleMessage demo_env (join_message [person 9]) demo_world join_configured))
    = KvGet "JOIN_EVENT_ID:-100" :: events
    /\ Forall (triggers_only "custom_join") events.
Proof.
  destruct (X12_join_uses_stored_identifier demo_env (join_message [person 9])
              (VNum (-100)) (person 7) (VStr "") (VArr [person 9]) "custom_join"
              demo_world join_configured) as (events & Htrace & Hall & _).
  - constructor.
    + exists (VObj [("id", VNum (-100))]). split; reflexivity.
    + reflexivity.
    + exists VUndef. split; reflexivity.
    + exists (VBool false). split; reflexivity.
    + reflexivity.
  - reflexivity.
  - reflexivity.
  - vm_compute. reflexivity.
  - discriminate.
  - exists events. split; [exact Htrace | exact Hall].
Defined.

Lemma bind_ext {A B} (m : M A) (k k' : A -> M B) w s :
  (forall a s', k a w s' = k' a w s') -> bind m k w s = bind m k' w s.
Proof. intros H. unfold bind. destruct (m w s) as [[a|e] s']; [apply H | reflexivity]. Qed.

Lemma for_each_skips_bots (rest : value -> M unit) items w s :
  forallb readable items = true ->
  for_each items
    (fun member =>
       is_bot <- prop member "is_bot" ;;
       if truthy is_bot then ret tt else rest member) w s
  = for_each (List.filter (fun member => negb (is_bot_member member)) items)
      (fun member =>
         is_bot <- prop member "is_bot" ;;
         if truthy is_bot then ret tt else rest member) w s.
Proof.
  revert s. induction items as [|member others IH]; intros s Hreadable; [reflexivity|].
  cbn [forallb] in Hreadable. apply andb_prop in Hreadable as [Hmember Hothers].
  cbn [List.filter]. unfold is_bot_member at 1.
  assert (Hbot : exists is_bot, get_prop member "is_bot" = Ok is_bot).
  { destruct member; try discriminate Hmember; simpl; eauto. }
  destruct Hbot as (is_bot & Hbot). rewrite Hbot.
  destruct (truthy is_bot) eqn:Etruthy; cbn [negb for_each].
  - unfold bind at 1. rewrite (bind_prop _ _ _ _ _ _ Hbot), Etruthy. unfold ret at 1.
    apply IH. exact Hothers.
  - apply bind_ext. intros _ s'. apply IH. exact Hothers.
Qed.

(** X13: bots among the new members have no effect.  When every
    element of the list can be read (none is [null]), the join branch
    does for the list exactly what it does for the list without the
    members whose [is_bot] is truthy: no reward request and no welcome
    message is ever made for a bot; for a list of bots only, the branch
    does nothing after reading (and finding) the identifier. *)
Theorem X13_bot_members_are_skipped env chatId items w s :
  forallb readable items = true ->
  join_branch env chatId (VArr items) w s
  = join_branch env chatId
      (VArr (List.filter (fun member => negb (is_bot_member member)) items)) w s.
Proof.
  intros Hreadable. unfold join_branch. apply bind_ext. intros joinEventId s0.
  destruct (negb (truthy joinEventId)); [reflexivity|].
  unfold iter_of. cbn [iterate]. rewrite !bind_lift.
  apply for_each_skips_bots. exact Hreadable.
Qed.

Lemma X13_bot_members_are_skipped_witness :
  join_branch demo_env (VNum (-100)) (VArr [bot_member 8; bot_member 9])
    demo_world join_configured
  = (Ok tt, log_event (KvGet "JOIN_EVENT_ID:-100") join_configured).
Proof.
  rewrite (X13_bot_members_are_skipped demo_env (VNum (-100)) [bot_member 8; bot_member 9]
             demo_world join_configured eq_refl).
  reflexivity.
Defined.

(** ** The resolver and the listing *)






(** X15: one run of the resolver makes at most one request, the one
    for the listing of the configured brand, and it makes none for a
    name with the [custom_] prefix or without a brand id; it changes
    nothing else (KV contents, cache) and it always returns. *)
Theorem X15_resolver_asks_at_most_once env friendlyName w s :
  exists v,
    resolveEventId env friendlyName w s = (Ok v, s)
    \/ exists brand,
         configured (BRAND_ID env) = Some brand
         /\ String.prefix "custom_" friendlyName = false
         /\ resolveEventId env friendlyName w s
            = (Ok v, log_event (listing_request env brand) s).
Proof.
  unfold resolveEventId.
  destruct (String.prefix "custom_" friendlyName) eqn:Eprefix.
  { eexists. left. reflexivity. }
  destruct (configured (BRAND_ID env)) as [brand|] eqn:Ebrand.
  2:{ eexists. left. reflexivity. }
  assert (Hgoal : exists v,
             try_catch
               (let base := match configured (LOYALTEEZ_API_URL env) with
                            | Some u => u
                            | None => "https://api.loyalteez.app"
                            end in
                let configUrl := base +:+ "/loyalteez-api/event-config?brandId="
                                 +:+ encodeURIComponent brand in
                response <- js_fetch EventConfig Http configUrl
                              (VObj [("headers", json_headers)]) ;;
                if negb (up_ok response) then ret (VStr friendlyName)
                else
                  data <- res_json response ;;
                  events <- prop data "events" ;;
                  let configs := or_else events (VArr []) in
                  items <- iter_of configs ;;
                  found <- find_config friendlyName items ;;
                  match found with
                  | Some resolvedId => ret resolvedId
                  | None => ret (VStr friendlyName)
                  end)
               (fun _ => ret (VStr friendlyName)) w s
             = (Ok v, log_event (listing_request env brand) s)).
  { unfold try_catch, bind at 1, js_fetch. fold (listing_request env brand).
    destruct (net w (trace s) (listing_request env brand)) as [m|r];
      [eexists; reflexivity|].
    destruct (up_ok r); cbn [negb]; [|eexists; reflexivity].
    unfold res_json. destruct (up_json r) as [data|]; [|eexists; reflexivity].
    unfold bind at 1, ret at 1. unfold prop. rewrite bind_lift.
    destruct (get_prop data "events") as [events|e]; [|eexists; reflexivity].
    unfold iter_of. rewrite bind_lift.
    destruct (iterate (or_else events (VArr []))) as [items|e]; [|eexists; reflexivity].
    unfold bind.
    destruct (find_config_run friendlyName items w
                (log_event (listing_request env brand) s)) as (o & Hrun & _).
    rewrite Hrun. destruct o as [[v|]|e]; eexists; reflexivity. }
  destruct Hgoal as (v & Hrun). exists v. right. exists brand.
  split; [reflexivity|]. split; [reflexivity | exact Hrun].
Qed.

(** ** escapeHtml *)

Lemma append_cons c a b : String c a +:+ b = String c (a +:+ b).
Proof. reflexivity. Qed.

Lemma append_assoc a b c : (a +:+ b) +:+ c = a +:+ (b +:+ c).
Proof. induction a as [|x a IH]; [reflexivity|]. now rewrite !append_cons, IH. Qed.

Lemma replace_all_app c by_ a b :
  replace_all c by_ (a +:+ b) = replace_all c by_ a +:+ replace_all c by_ b.
Proof.
  induction a as [|d a IH]; [reflexivity|].
  rewrite append_cons. cbn [replace_all]. rewrite IH.
  destruct (Ascii.eqb d c); [|reflexivity].
  now rewrite append_assoc.
Qed.

Lemma escape_chain_cons c s :
  replace_all "034" "&quot;"
    (replace_all ">" "&gt;" (replace_all "<" "&lt;" (replace_all "&" "&amp;" (String c s))))
  = escape_char c +:+
    replace_all "034" "&quot;"
      (replace_all ">" "&gt;" (replace_all "<" "&lt;" (replace_all "&" "&amp;" s))).
Proof.
  unfold escape_char. cbn [replace_all].
  destruct (Ascii.eqb c "&") eqn:E1.
  { rewrite !replace_all_app. reflexivity. }
  change (String c (replace_all "&" "&amp;" s))
    with (String c EmptyString +:+ replace_all "&" "&amp;" s).
  rewrite !replace_all_app. cbn [replace_all].
  destruct (Ascii.eqb c "<") eqn:E2; [reflexivity|].
  cbn [replace_all].
  destruct (Ascii.eqb c ">") eqn:E3; [reflexivity|].
  cbn [replace_all].
  destruct (Ascii.eqb c "034") eqn:E4; reflexivity.
Qed.

Lemma escapeHtml_each s : escapeHtml (VStr s) = escape_each s.
Proof.
  unfold escapeHtml. cbn [truthy to_string].
  destruct s as [|c s]; [reflexivity|]. cbn [String.eqb negb].
  revert c. induction s as [|d s IH]; intros c.
  - rewrite escape_chain_cons. reflexivity.
  - rewrite escape_chain_cons. cbn [escape_each]. f_equal. apply IH.
Qed.

Lemma no_char_app bad a b : no_char bad (a +:+ b) = no_char bad a && no_char bad b.
Proof.
  unfold no_char. induction a as [|c a IH]; [reflexivity|].
  rewrite append_cons. cbn [list_ascii_of_string forallb]. now rewrite IH, andb_assoc.
Qed.

(** X16: the text produced by [escapeHtml] for a string contains none
    of the characters [<], [>] and the double quote, and is the text
    itself when the text contains none of [&], [<], [>] and the double
    quote. *)
Theorem X16_escapeHtml_output_is_safe s :
  no_char (fun c => Ascii.eqb c "<" || Ascii.eqb c ">" || Ascii.eqb c "034")
    (escapeHtml (VStr s)) = true
  /\ (no_char html_special s = true -> escapeHtml (VStr s) = s).
Proof.
  rewrite escapeHtml_each. split.
  - induction s as [|c s IH]; [reflexivity|].
    cbn [escape_each]. rewrite no_char_app, IH, andb_true_r.
    unfold escape_char.
    destruct (Ascii.eqb c "&"); [reflexivity|].
    destruct (Ascii.eqb c "<") eqn:E2; [reflexivity|].
    destruct (Ascii.eqb c ">") eqn:E3; [reflexivity|].
    destruct (Ascii.eqb c "034") eqn:E4; [reflexivity|].
    unfold no_char. cbn [list_ascii_of_string forallb]. now rewrite E2, E3, E4.
  - induction s as [|c s IH]; [reflexivity|].
    unfold no_char. cbn [list_ascii_of_string forallb]. intros H.
    apply andb_prop in H as [Hc Hs]. cbn [escape_each]. rewrite (IH Hs).
    unfold html_special in Hc. apply negb_true_iff in Hc.
    apply orb_false_iff in Hc as [Hc E4]. apply orb_false_iff in Hc as [Hc E3].
    apply orb_false_iff in Hc as [E1 E2].
    unfold escape_char. now rewrite E1, E2, E3, E4.
Qed.

(** X17: [escapeHtml] works character by character, each character of
    the text once: [&] becomes [&amp;], [<] becomes [&lt;], [>] becomes
    [&gt;], the double quote becomes [&quot;], every other character is
    kept.  The ampersand of an entity it has written is not escaped
    again; the escape of a concatenation is the concatenation of the
    escapes; a value that is falsy gives the empty text. *)
Theorem X17_escapeHtml_character_by_character :
  (forall c s, escapeHtml (VStr (String c s)) = escape_char c +:+ escapeHtml (VStr s))
  /\ (forall a b,
        escapeHtml (VStr (a +:+ b)) = escapeHtml (VStr a) +:+ escapeHtml (VStr b))
  /\ (forall v, truthy v = false -> escapeHtml v = "").
Proof.
  split; [|split].
  - intros c s. rewrite !escapeHtml_each. reflexivity.
  - intros a b. rewrite !escapeHtml_each.
    induction a as [|c a IH]; [reflexivity|].
    rewrite append_cons. cbn [escape_each]. now rewrite IH, append_assoc.
  - intros v H. unfold escapeHtml. now rewrite H.
Qed.

(** ** The request handler around the update handler *)

(** X18: a request whose method is not POST never reaches the update
    handler: it is answered (200 for OPTIONS and for GET /health, 405
    otherwise) with the state unchanged, and the answer does not depend
    on the [secret] parameter or on the body; in particular the health
    document is served without the webhook secret. *)
Theorem X18_only_post_reaches_the_handler env request w s :
  method request <> "POST" ->
  exists response,
    fetch env request w s = (Ok response, s)
    /\ (status response = 200 \/ status response = 405)
    /\ forall secret b,
         fetch env (with_secret secret b request) w s = (Ok response, s).
Proof.
  intros Hmethod. unfold fetch. cbn [with_secret method pathname].
  destruct (String.eqb (method request) "OPTIONS").
  { eexists. split; [reflexivity|]. split; [left; reflexivity | reflexivity]. }
  destruct (String.eqb (method request) "GET" && String.eqb (pathname request) "/health").
  { eexists. split; [reflexivity|]. split; [left; reflexivity | reflexivity]. }
  destruct (String.eqb (method request) "POST") eqn:Epost.
  { apply String.eqb_eq in Epost. contradiction. }
  eexists. split; [reflexivity|]. split; [right; reflexivity | reflexivity].
Qed.

Lemma X18_only_post_reaches_the_handler_witness :
  exists response,
    fetch demo_env {| method := "GET"; pathname := "/health";
                      secret_param := None;
                      body_json := Throw "Unexpected end of JSON input" |} demo_world initial_state
    = (Ok response, initial_state)
    /\ status response = 200.
Proof.
  destruct (X18_only_post_reaches_the_handler demo_env
              {| method := "GET"; pathname := "/health";
                 secret_param := None;
                 body_json := Throw "Unexpected end of JSON input" |} demo_world initial_state)
    as (response & Hrun & _ & _); [discriminate|].
  exists response. split; [exact Hrun|].
  cbv in Hrun. injection Hrun as <-. reflexivity.
Defined.

(** X19: what a POST that passes the secret check gets for a body that
    is not an update.  A body that is not JSON is answered 500 with the
    message of the parser's error, whatever that message is, and the
    JSON body [null] is answered 500 with the message of the failed read
    of [update.message]; a JSON boolean, number, string or array is
    acknowledged with 200 "OK".  In all these cases nothing else
    happens. *)
Theorem X19_bodies_that_are_not_updates env request w s :
  method request = "POST" ->
  secret_rejected env request = false ->
  (forall message,
     body_json request = Throw message ->
     fetch env request w s = (Ok (internal_error message), s))
  /\ (body_json request = Ok VNull ->
      fetch env request w s
      = (Ok (internal_error "Cannot read properties of null (reading 'message')"), s))
  /\ (forall v,
        body_json request = Ok v ->
        match v with
        | VBool _ | VNum _ | VStr _ | VArr _ => True
        | _ => False
        end ->
        fetch env request w s = (Ok acknowledged, s)).
Proof.
  intros Hmethod Hsecret.
  assert (Hfetch : fetch env request w s =
                   try_catch
                     (update <- request_json request ;;
                      handleUpdate env update ;;;
                      ret acknowledged)
                     (fun message => ret (internal_error message)) w s).
  { unfold fetch. rewrite Hmethod. cbn [String.eqb Ascii.eqb Bool.eqb andb negb].
    rewrite Hsecret. reflexivity. }
  rewrite Hfetch. unfold try_catch, bind at 1, request_json.
  split; [|split].
  - intros message ->. reflexivity.
  - intros ->. reflexivity.
  - intros v -> Hshape. destruct v; try contradiction; reflexivity.
Qed.

Lemma X19_bodies_that_are_not_updates_witness :
  fetch demo_env
    (post (Some "s3cret") (Throw "Unexpected token h in JSON at position 0"))
    demo_world initial_state
  = (Ok (internal_error "Unexpected token h in JSON at position 0"),
     initial_state)
  /\ fetch demo_env (post (Some "s3cret") (Ok (VArr []))) demo_world initial_state
     = (Ok acknowledged, initial_state).
Proof.
  split.
  - apply (X19_bodies_that_are_not_updates demo_env
             (post (Some "s3cret")
                (Throw "Unexpected token h in JSON at position 0")));
      reflexivity.
  - destruct (X19_bodies_that_are_not_updates demo_env
                (post (Some "s3cret") (Ok (VArr []))) demo_world initial_state
                eq_refl eq_refl) as (_ & _ & H).
    apply (H (VArr [])); [reflexivity | exact I].
Defined.

(** ** The commands without a reward *)

(** X20: [/balance] and [/ltz] are answered with the link to the perks
    site, [/start] with the help text: one [sendMessage] and nothing
    else.  No identifier has to be configured, the KV namespace is not
    read, and no request goes to the rewards API or to the membership
    endpoint; the sender need not be an admin. *)
Theorem X20_static_commands env message chatId user t members w s :
  reads message chatId user (VStr t) members ->
  truthy members = false ->
  (String.prefix "/balance" t || String.prefix "/ltz" t = true ->
   handleMessage env message w s = sendMessage env chatId msg_balance w s)
  /\ (String.prefix "/start" t = true ->
      handleMessage env message w s = sendMessage env chatId msg_start w s)
  /\ includes "https://perks.loyalteez.app" msg_balance = true.
Proof.
  intros Hreads Hmembers.
  rewrite (handleMessage_reads _ _ _ _ _ _ _ _ Hreads).
  unfold route. rewrite Hmembers. unfold starts_with. rewrite !bind_ret.
  split; [|split; [|reflexivity]].
  - intros H.
    assert (H1 : String.prefix "/checkin" t = false).
    { pose proof H as H'. apply orb_true_iff in H' as [H'|H'];
        destruct (prefix_app _ _ H') as (rest & ->); reflexivity. }
    rewrite H1, !bind_ret, H. reflexivity.
  - intros H. destruct (prefix_app _ _ H) as (rest & Ht).
    assert (H1 : String.prefix "/checkin" t = false) by (rewrite Ht; reflexivity).
    assert (H2 : String.prefix "/balance" t = false) by (rewrite Ht; reflexivity).
    assert (H3 : String.prefix "/ltz" t = false) by (rewrite Ht; reflexivity).
    assert (H4 : String.prefix "/config_checkin" t = false) by (rewrite Ht; reflexivity).
    assert (H5 : String.prefix "/config_join" t = false) by (rewrite Ht; reflexivity).
    rewrite H1, ?bind_ret, H2, H3. cbn [orb].
    rewrite ?bind_ret, H4, ?bind_ret, H5, ?bind_ret, H. reflexivity.
Qed.

Lemma X20_static_commands_witness :
  handleMessage demo_env (group_message "/ltz") offline initial_state
  = (Ok tt, after [message_sent "123:abc" (VNum (-100)) msg_balance] initial_state).
Proof.
  destruct (X20_static_commands demo_env (group_message "/ltz") (VNum (-100)) (person 7)
              "/ltz" VUndef offline initial_state) as (H & _).
  - constructor.
    + exists (VObj [("id", VNum (-100))]). split; reflexivity.
    + reflexivity.
    + exists (VStr "/ltz"). split; reflexivity.
    + exists (VBool false). split; reflexivity.
    + reflexivity.
  - reflexivity.
  - rewrite H; reflexivity.
Defined.

(** ** Who the rewards API is asked about *)

Lemma ensureWallet_names_user c userEmail :
  only_emits (names_user userEmail (env_value (brandId c))) (ensureWallet c userEmail).
Proof.
  unfold ensureWallet.
  repeat first [ apply only_emits_js_fetch; simpl; split; reflexivity | emits_step ].
Qed.

Lemma sendEvent_names_user c eventType userEmail metadata :
  only_emits (names_user userEmail (env_value (brandId c)))
    (sendEvent c eventType userEmail metadata).
Proof.
  unfold sendEvent.
  apply only_emits_bind; [| intros _].
  { apply only_emits_try_catch; [| intros ?; apply only_emits_ret].
    apply only_emits_bind; [| intros ?; apply only_emits_ret].
    apply ensureWallet_names_user. }
  repeat first [ apply only_emits_js_fetch; simpl; repeat split; reflexivity | emits_step ].
Qed.

(** X21: every request that the reward trigger makes to the rewards
    API (wallet pregeneration and manual event, through a binding or
    not) names the user by the address [telegram_<id>@loyalteez.app]
    built from the [id] of the user it was given, and carries the
    configured brand id; manual events carry the domain
    [telegram.loyalteez.app].  The only other request it makes is the
    one for the bot's own identity; it does not touch the KV
    namespace. *)
Theorem X21_reward_requests_name_the_user env eventType user chatId uid w s :
  get_prop user "id" = Ok uid ->
  extends_by
    (names_user ("telegram_" +:+ to_string uid +:+ "@loyalteez.app")
       (env_value (BRAND_ID env)))
    s (snd (triggerReward env eventType user chatId w s)).
Proof.
  intros Hid. unfold triggerReward.
  destruct (configured (BRAND_ID env)); [|apply extends_by_refl].
  rewrite (bind_prop _ _ _ _ _ _ Hid).
  refine (only_emits_bind _ _ _ _ _ w s).
  - eapply only_emits_weaken; [|apply getBotUsername_emits].
    intros [key|key val|site via url init]; simpl; try tauto.
    intros [<-|[]]. exact I.
  - intros botUsername.
    apply only_emits_try_catch; [| intros ?; apply only_emits_ret].
    do 3 (apply only_emits_bind; [apply only_emits_lift | intros ?]).
    apply (sendEvent_names_user
             (new_LoyalteezClient (BRAND_ID env) (LOYALTEEZ_API_URL env)
                (EVENT_HANDLER env) (PREGENERATION env))).
Qed.

Lemma X21_reward_requests_name_the_user_witness :
  extends_by (names_user "telegram_7@loyalteez.app" (VStr "0xBrand")) initial_state
    (snd (triggerReward env_with_bindings (VStr "custom_abc123") (person 7) (VNum (-100))
            bindings_down initial_state)).
Proof.
  apply (X21_reward_requests_name_the_user env_with_bindings (VStr "custom_abc123")
           (person 7) (VNum (-100)) (VNum 7) bindings_down initial_state).
  reflexivity.
Defined.

(** X22: the health document shows whether the bot token and the brand
    id are set, never their values, and nothing of the webhook secret:
    two environments with the same API URL and KV binding, in which the
    token and the brand id are set in both or in neither, get the same
    answer to GET /health, whatever the values. *)
Theorem X22_health_document_hides_secrets env env' request w s :
  method request = "GET" ->
  pathname request = "/health" ->
  same_health_flags env env' ->
  fetch env request w s = fetch env' request w s.
Proof.
  intros Hmethod Hpath (Hurl & Hkv & Htoken & Hbrand).
  unfold fetch. rewrite Hmethod, Hpath.
  cbn [String.eqb Ascii.eqb Bool.eqb andb].
  unfold bind, get_now, ret, health_document. rewrite Hurl, Hkv.
  destruct (configured (TELEGRAM_BOT_TOKEN env)) as [token|],
           (configured (TELEGRAM_BOT_TOKEN env')) as [token'|];
    try (exfalso; destruct Htoken as [H1 H2];
         first [discriminate (H1 eq_refl) | discriminate (H2 eq_refl)]);
    destruct (configured (BRAND_ID env)) as [brand|],
             (configured (BRAND_ID env')) as [brand'|];
    try (exfalso; destruct Hbrand as [H1 H2];
         first [discriminate (H1 eq_refl) | discriminate (H2 eq_refl)]);
    reflexivity.
Qed.

Lemma X22_health_document_hides_secrets_witness :
  fetch demo_env health_request demo_world initial_state
  = fetch other_secrets health_request demo_world initial_state.
Proof.
  apply (X22_health_document_hides_secrets demo_env other_secrets health_request
           demo_world initial_state); [reflexivity | reflexivity |].
  repeat split; intros H; discriminate H.
Defined.

(** ** A worker without a bot token *)

Lemma sendMessage_without_token env chatId text w s :
  configured (TELEGRAM_BOT_TOKEN env) = None ->
  sendMessage env chatId text w s = (Ok tt, s).
Proof. intros H. rewrite sendMessage_run, H. reflexivity. Qed.

Lemma only_emits_idle {A} (P : event -> Prop) (m : M A) :
  (forall w s, snd (m w s) = s) -> only_emits P m.
Proof. intros H w s. rewrite H. apply extends_by_refl. Qed.

Lemma triggerReward_without_token env eventType user chatId :
  configured (TELEGRAM_BOT_TOKEN env) = None ->
  only_emits silent_towards_telegram (triggerReward env eventType user chatId).
Proof.
  intros Htoken. unfold triggerReward.
  destruct (configured (BRAND_ID env)); [|apply only_emits_ret].
  apply only_emits_bind; [apply only_emits_lift | intros uid].
  apply only_emits_bind.
  { unfold getBotUsername. rewrite Htoken.
    apply only_emits_bind; [apply only_emits_get_cached | intros cached].
    destruct (configured cached); apply only_emits_ret. }
  intros botUsername.
  apply only_emits_try_catch; [| intros ?; apply only_emits_ret].
  do 3 (apply only_emits_bind; [apply only_emits_lift | intros ?]).
  eapply only_emits_weaken; [|apply sendEvent_emits].
  intros [key|key val|site via url init]; simpl; intuition auto.
Qed.

(** X23: without a bot token the worker is mute but not idle.  In one
    run of the message handler it sends nothing to Telegram (no message,
    no membership query, no identity query), never runs the resolver
    and never writes to the KV namespace: every admin command is
    refused, since the admin check answers [false].  All it can still do
    is read the KV namespace and, for a join or a [/checkin] in a chat
    with a stored identifier, ask the rewards API. *)
Theorem X23_without_token_no_telegram_request env message w s :
  configured (TELEGRAM_BOT_TOKEN env) = None ->
  extends_by silent_towards_telegram s (snd (handleMessage env message w s)).
Proof.
  intros Htoken.
  assert (Hsend : forall chatId text,
             only_emits silent_towards_telegram (sendMessage env chatId text)).
  { intros chatId text. apply only_emits_idle. intros w' s'.
    now rewrite sendMessage_without_token. }
  assert (Hconfig : forall k chatId user t,
             only_emits silent_towards_telegram (config_branch k env chatId user t)).
  { intros k chatId user t. unfold config_branch.
    apply only_emits_bind; [apply only_emits_lift | intros userId].
    unfold isAdmin. rewrite Htoken. intros w' s'. rewrite bind_ret. cbn [negb].
    apply Hsend. }
  assert (Hstarts : forall text p, only_emits silent_towards_telegram (starts_with text p)).
  { intros text p. destruct text; first [apply only_emits_ret | apply only_emits_throw]. }
  destruct (handleMessage_reads_or_stops env message w s)
    as [(chatId & user & text & members & Hreads) | Hstop];
    [|rewrite Hstop; apply extends_by_refl].
  rewrite (handleMessage_reads _ _ _ _ _ _ _ _ Hreads).
  assert (Hroute : only_emits silent_towards_telegram (route env chatId user text members));
    [|apply Hroute].
  unfold route.
  destruct (truthy members).
  { unfold join_branch.
    apply only_emits_bind.
    { destruct (TELEGRAM_BOT_KV env); [apply only_emits_kv_get; exact I | apply only_emits_ret]. }
    intros joinEventId. destruct (negb (truthy joinEventId)); [apply Hsend|].
    apply only_emits_bind; [apply only_emits_lift | intros items].
    apply only_emits_for_each. intros member.
    apply only_emits_bind; [apply only_emits_lift | intros is_bot].
    destruct (truthy is_bot); [apply only_emits_ret|].
    apply only_emits_bind;
      [apply triggerReward_without_token; exact Htoken | intros result].
    apply only_emits_bind; [apply only_emits_lift | intros success].
    destruct (truthy success);
      repeat (apply only_emits_bind; [apply only_emits_lift | intros ?]); apply Hsend. }
  apply only_emits_bind; [apply Hstarts | intros [|]].
  { unfold checkin_branch.
    apply only_emits_bind.
    { destruct (TELEGRAM_BOT_KV env); [apply only_emits_kv_get; exact I | apply only_emits_ret]. }
    intros checkinEventId. destruct (negb (truthy checkinEventId)); [apply Hsend|].
    apply only_emits_bind;
      [apply triggerReward_without_token; exact Htoken | intros result].
    unfold checkin_reply. repeat first [ apply Hsend | emits_step ]. }
  apply only_emits_bind; [apply Hstarts | intros is_balance].
  apply only_emits_bind; [apply Hstarts | intros is_ltz].
  destruct (is_balance || is_ltz); [apply Hsend|].
  apply only_emits_bind; [apply Hstarts | intros [|]]; [apply Hconfig|].
  apply only_emits_bind; [apply Hstarts | intros [|]]; [apply Hconfig|].
  apply only_emits_bind; [apply Hstarts | intros [|]]; [apply Hsend | apply only_emits_ret].
Qed.

Lemma X23_without_token_no_telegram_request_witness :
  extends_by silent_towards_telegram checkin_configured
    (snd (handleMessage env_without_token (group_message "/checkin") demo_world
            checkin_configured)).
Proof.
  apply (X23_without_token_no_telegram_request env_without_token
           (group_message "/checkin") demo_world checkin_configured).
  reflexivity.
Defined.

(** ** An admin command with its argument *)

Lemma prefix_of_append p rest : String.prefix p (p +:+ rest) = true.
Proof.
  induction p as [|c p IH]; [apply prefix_empty|].
  rewrite append_cons. cbn [String.prefix].
  destruct (ascii_dec c c) as [_|Hne]; [exact IH | now contradiction Hne].
Qed.

Lemma prefix_extends p a b : String.prefix p a = true -> String.prefix p (a +:+ b) = true.
Proof.
  intros H. destruct (prefix_app _ _ H) as (rest & ->).
  rewrite append_assoc. apply prefix_of_append.
Qed.

Lemma split_space_app a b :
  includes " " a = false -> split_space (a +:+ " " +:+ b) = a :: split_space b.
Proof.
  induction a as [|c a IH]; intros H; [reflexivity|].
  cbn [includes String.prefix] in H. apply orb_false_iff in H as [Hhead Htail].
  rewrite append_cons. cbn [split_space].
  destruct (Ascii.eqb c " ") eqn:Ec.
  - apply Ascii.eqb_eq in Ec. subst c.
    destruct (ascii_dec " " " ") as [_|Hne]; [|now contradiction Hne].
    now rewrite prefix_empty in Hhead.
  - now rewrite (IH Htail).
Qed.

(** X24: an authorized [/config_checkin] or [/config_join] of the form
    "command, one space, argument", neither part containing a space,
    with the KV namespace bound: when the resolver returns the string
    [R] for the argument, [R] is written under the key of the command
    for the chat, and then the confirmation is sent, as the last request
    of the run, with the bot token that the authorization implies: the
    "updated to" text when [R] is the argument itself, the text showing
    the friendly name and what it maps to when the resolver found
    another identifier.  Up to the write, only the admin check and the
    resolver have run, and they have not changed the KV contents. *)
Theorem X24_config_stores_and_confirms
    k env message chatId user command X members userId R w s sa sr :
  reads message chatId user (VStr (command +:+ " " +:+ X)) members ->
  truthy members = false ->
  String.prefix (config_command k) command = true ->
  includes " " command = false ->
  includes " " X = false ->
  TELEGRAM_BOT_KV env = true ->
  get_prop user "id" = Ok userId ->
  isAdmin env chatId userId w s = (Ok true, sa) ->
  resolveEventId env X w sa = (Ok (VStr R), sr) ->
  exists token,
    configured (TELEGRAM_BOT_TOKEN env) = Some token
    /\ handleMessage env message w s
       = (Ok tt,
          log_event
            (message_sent token chatId
               (if String.eqb R X then msg_updated k (VStr R)
                else msg_configured k X (VStr R)))
            (stored (config_key k chatId) R sr))
    /\ kv sr = kv s.
Proof.
  intros Hreads Hmembers Hprefix Hcommand HX Hkv Hid Hadmin Hresolve.
  destruct (isAdmin_needs_token _ _ _ _ _ _ Hadmin) as (token & Htoken).
  exists token. split; [exact Htoken|].
  split.
  - rewrite (handleMessage_reads _ _ _ _ _ _ _ _ Hreads),
      (route_config k _ _ _ _ _ _ _ Hmembers (prefix_extends _ _ _ Hprefix)).
    unfold config_branch.
    rewrite (bind_prop _ _ _ _ _ _ Hid), (bind_ok _ _ _ _ _ _ Hadmin). cbn [negb].
    rewrite (split_space_app _ _ Hcommand), (split_space_without_space _ HX).
    rewrite (bind_ok _ _ _ _ _ _ Hresolve), Hkv.
    unfold bind at 1. cbn [kv_put strict_eq_str]. fold (stored (config_key k chatId) R sr).
    destruct (String.eqb R X); cbn [negb]; rewrite sendMessage_run, Htoken; reflexivity.
  - pose proof (isAdmin_emits env chatId userId w s) as [H1 _].
    pose proof (resolveEventId_emits env X w sa) as [H2 _].
    rewrite Hadmin in H1. rewrite Hresolve in H2. cbn [snd] in *. congruence.
Qed.

Lemma X24_config_stores_and_confirms_witness :
  handleMessage demo_env (text_message 5 (person 7) "/config_join daily_checkin")
    demo_world initial_state
  = (Ok tt,
     log_event
       (message_sent "123:abc" (VNum 5)
          (msg_configured Join "daily_checkin" (VStr "custom_abc123")))
       (stored "JOIN_EVENT_ID:5" "custom_abc123"
          (log_event (listing_request demo_env "0xBrand") initial_state))).
Proof.
  destruct (X24_config_stores_and_confirms Join demo_env
              (text_message 5 (person 7) "/config_join daily_checkin") (VNum 5) (person 7)
              "/config_join" "daily_checkin" VUndef (VNum 7) "custom_abc123"
              demo_world initial_state initial_state
              (log_event (listing_request demo_env "0xBrand") initial_state))
    as (token & Htoken & Hrun & _).
  - constructor.
    + exists (VObj [("id", VNum 5)]). split; reflexivity.
    + reflexivity.
    + exists (VStr "/config_join daily_checkin"). split; reflexivity.
    + exists (VBool false). split; reflexivity.
    + reflexivity.
  - reflexivity.
  - reflexivity.
  - reflexivity.
  - reflexivity.
  - reflexivity.
  - reflexivity.
  - reflexivity.
  - vm_compute. reflexivity.
  - injection Htoken as <-. exact Hrun.
Defined.

(** ** The reward request of a trigger *)








(** ** C4: from the admin command to the check-in *)




(** ** C3: what the update handler survives *)















(** ** C10: with and without the binding *)



